(** * Hospital bed dashboard: data generator and filter/aggregation pipeline

    A shallow embedding of [hospital_app.py]: the seeded generator
    [generate_data], the sidebar filter chain and the aggregate views that
    feed the charts, followed by the properties of the specification. *)

From Stdlib Require Import ZArith List String Ascii Bool Lia QArith.
From Stdlib Require Import Permutation DecimalString DecimalZ DecimalPos.
From Stdlib Require Lists.Finite.
From Stdlib Require Import Sorted.
Import ListNotations.

Local Open Scope string_scope.
Local Open Scope list_scope.
Local Open Scope Z_scope.

(** ** Data model *)

(** A pandas [Timestamp]: the calendar day as a day ordinal and the time of
    day in microseconds.  [datetime.today()] carries both. *)
Record Timestamp : Type := mkTimestamp {
  ts_day : Z;
  ts_time : Z
}.

Definition ts_eqb (a b : Timestamp) : bool :=
  (ts_day a =? ts_day b) && (ts_time a =? ts_time b).

(** Timestamps order by day, then by time of day. *)
Definition ts_leb (a b : Timestamp) : bool :=
  (ts_day a <? ts_day b) || ((ts_day a =? ts_day b) && (ts_time a <=? ts_time b)).

(** [Timestamp.date()] / [Series.dt.date]: the calendar day alone. *)
Definition ts_date (t : Timestamp) : Z := ts_day t.

(** One row of the data frame: the dict appended in the innermost loop. *)
Record BedRecord : Type := mkBed {
  date : Timestamp;
  hospital : string;
  ward : string;
  bed_id : string;
  occupied : Z
}.

(** A data frame is its rows in index order. *)
Definition DataFrame : Type := list BedRecord.

(** ** The random stream

    [numpy.random] is an external collaborator: a state seeded by
    [np.random.seed] and advanced by every [np.random.randint] draw, whose
    result lies in the half-open range it was asked for. *)
Class RandomState : Type := {
  rng : Type;
  rng_seed : Z -> rng;
  rng_randint : rng -> Z -> Z -> Z * rng;
  rng_randint_range : forall g low high,
    low < high -> low <= fst (rng_randint g low high) < high
}.

(** ** Generator state and its monad

    The body of [generate_data] mutates three things: the global random
    state, the counter [bed_no] and the list [data].  A dict subscript or a
    [randint] call with an empty range raises; [None] stands for that. *)
Section Generator.

Context {R : RandomState}.

Record GenState : Type := mkGen {
  g_rng : rng;
  g_bed_no : Z;
  g_data : list BedRecord
}.

Definition Gen (A : Type) : Type := GenState -> option (A * GenState).

Definition ret {A} (a : A) : Gen A := fun s => Some (a, s).

Definition bind {A B} (m : Gen A) (k : A -> Gen B) : Gen B :=
  fun s => match m s with
           | Some (a, s') => k a s'
           | None => None
           end.

Definition raise {A} : Gen A := fun _ => None.

Notation "x <- m ;; k" := (bind m (fun x => k))
  (at level 61, m at next level, right associativity).
Notation "m ;;; k" := (bind m (fun _ => k))
  (at level 61, right associativity).

(** [for x in l: body x] *)
Fixpoint for_each {A} (l : list A) (body : A -> Gen unit) : Gen unit :=
  match l with
  | [] => ret tt
  | x :: l' => body x ;;; for_each l' body
  end.

(** [dict[key]] on a dict literal, [KeyError] when the key is absent. *)
Fixpoint dict_get (d : list (string * Z)) (key : string) : option Z :=
  match d with
  | [] => None
  | (k, v) :: d' => if String.eqb k key then Some v else dict_get d' key
  end.

Definition subscript (d : list (string * Z)) (key : string) : Gen Z :=
  match dict_get d key with
  | Some v => ret v
  | None => raise
  end.

(** [np.random.randint(low, high)]: [ValueError] unless [low < high]. *)
Definition np_randint (low high : Z) : Gen Z :=
  fun s =>
    if low <? high then
      let (v, g') := rng_randint (g_rng s) low high in
      Some (v, mkGen g' (g_bed_no s) (g_data s))
    else None.

(** [range(n)] *)
Definition range (n : Z) : list Z := map Z.of_nat (seq 0 (Z.to_nat n)).

(** [f"{n}"] for an int: its decimal digits. *)
Definition str_of_int (n : Z) : string := NilZero.string_of_int (Z.to_int n).

(** [f"B-{bed_no}"] *)
Definition bed_label (bed_no : Z) : string := String.append "B-" (str_of_int bed_no).

(** [int(capacity*0.5)]: the product is exact in double precision for the
    capacities at hand and [int] truncates towards zero. *)
Definition int_half (capacity : Z) : Z := Z.quot capacity 2.

Definition hospitals : list string :=
  ["City Hospital"; "Central Hospital"; "National Medical Center"].

Definition wards : list string := ["ICU"; "Emergency"; "General"; "Maternity"].

Definition ward_capacity : list (string * Z) :=
  [("ICU", 20); ("Emergency", 30); ("General", 50); ("Maternity", 25)].

(** [pd.date_range(end=t, periods=n)]: [n] daily stamps ending at [t], each
    with the time of day of [t]. *)
Definition date_range_end (t : Timestamp) (periods : Z) : list Timestamp :=
  map (fun k => mkTimestamp (ts_day t - (periods - 1) + k) (ts_time t))
      (range periods).

(** [data.append({...}); bed_no += 1] *)
Definition append_bed (d : Timestamp) (hosp w : string) (occ i : Z) : Gen unit :=
  fun s =>
    Some (tt, mkGen (g_rng s) (g_bed_no s + 1)
                (g_data s ++ [mkBed d hosp w (bed_label (g_bed_no s))
                                    (if i <? occ then 1 else 0)])).

(** The body of [for ward in wards]. *)
Definition ward_body (d : Timestamp) (hosp w : string) : Gen unit :=
  capacity <- subscript ward_capacity w ;;
  occ <- np_randint (int_half capacity) capacity ;;
  for_each (range capacity) (append_bed d hosp w occ).

Definition generate_loops (today : Timestamp) : Gen unit :=
  for_each (date_range_end today 30) (fun d =>
    for_each hospitals (fun hosp =>
      for_each wards (fun w => ward_body d hosp w))).

(** [generate_data()], with the value of [datetime.today()] made explicit. *)
Definition generate_data (today : Timestamp) : option DataFrame :=
  match generate_loops today (mkGen (rng_seed 42) 1 []) with
  | Some (_, s) => Some (g_data s)
  | None => None
  end.

End Generator.

(** ** Sidebar selections *)

(** The widget values read by the filter chain: [hospital] (["All"] or a
    hospital name), [ward] (the multiselect list), [bed_status],
    [critical_view] and the two ends of [date_range]. *)
Record FilterCriteria : Type := mkCriteria {
  c_hospital : string;
  c_ward : list string;
  c_bed_status : string;
  c_critical_view : bool;
  c_date_range : Z * Z
}.

(** [Series.isin(values)] on a string column, row by row. *)
Definition isin (x : string) (values : list string) : bool :=
  existsb (String.eqb x) values.

Definition critical_wards : list string := ["ICU"; "Emergency"].

(** ** Filtering *)

(** [if hospital != "All": data = data[data["hospital"] == hospital]] *)
Definition filter_hospital (c : FilterCriteria) (data : DataFrame) : DataFrame :=
  if negb (String.eqb (c_hospital c) "All")
  then filter (fun r => String.eqb (hospital r) (c_hospital c)) data
  else data.

(** [data = data[data["ward"].isin(ward)]] *)
Definition filter_ward (c : FilterCriteria) (data : DataFrame) : DataFrame :=
  filter (fun r => isin (ward r) (c_ward c)) data.

(** [if critical_view: data = data[data["ward"].isin(["ICU", "Emergency"])]] *)
Definition filter_critical (c : FilterCriteria) (data : DataFrame) : DataFrame :=
  if c_critical_view c
  then filter (fun r => isin (ward r) critical_wards) data
  else data.

(** The [if bed_status == "Available" ... elif bed_status == "Occupied"]
    pair. *)
Definition filter_status (c : FilterCriteria) (data : DataFrame) : DataFrame :=
  if String.eqb (c_bed_status c) "Available"
  then filter (fun r => occupied r =? 0) data
  else if String.eqb (c_bed_status c) "Occupied"
  then filter (fun r => occupied r =? 1) data
  else data.

(** The [date_range] mask on [data["date"].dt.date]. *)
Definition filter_date (c : FilterCriteria) (data : DataFrame) : DataFrame :=
  filter (fun r => (fst (c_date_range c) <=? ts_date (date r))
                   && (ts_date (date r) <=? snd (c_date_range c))) data.

(** The five stages in the order of the source. *)
Definition filter_stages (c : FilterCriteria) : list (DataFrame -> DataFrame) :=
  [filter_hospital c; filter_ward c; filter_critical c; filter_status c;
   filter_date c].

(** Running a list of stages from left to right. *)
Definition run_stages (stages : list (DataFrame -> DataFrame)) (df : DataFrame)
  : DataFrame :=
  fold_left (fun data stage => stage data) stages df.

(** The module-level filter chain, lines 86 to 104. *)
Definition apply_filters (c : FilterCriteria) (df : DataFrame) : DataFrame :=
  filter_date c (filter_status c (filter_critical c (filter_ward c
    (filter_hospital c df)))).

(** ** Column reductions *)

(** [Series.sum()] on an int column. *)
Definition col_sum (l : list Z) : Z := fold_right Z.add 0 l.

(** Distinct values in order of first appearance. *)
Fixpoint unique (l : list string) : list string :=
  match l with
  | [] => []
  | x :: l' => x :: filter (fun y => negb (String.eqb y x)) (unique l')
  end.

(** [Series.nunique()] on a string column. *)
Definition nunique (l : list string) : Z := Z.of_nat (List.length (unique l)).

(** A float64 as the pipeline can produce one: an exact quotient, an
    infinity or NaN.  Rounding is not modelled. *)
Inductive float : Type :=
| Finite (q : Q)
| PosInf
| NegInf
| NaN.

(** [a / b] on ints: true division, with the IEEE results for a zero
    divisor that pandas and numpy return. *)
Definition truediv (a b : Z) : float :=
  if b =? 0 then
    (if a =? 0 then NaN else if 0 <? a then PosInf else NegInf)
  else Finite (Qdiv (inject_Z a) (inject_Z b)).

(** [x * 100] *)
Definition times100 (x : float) : float :=
  match x with
  | Finite q => Finite (Qmult q (inject_Z 100))
  | PosInf => PosInf
  | NegInf => NegInf
  | NaN => NaN
  end.

(** ** KPIs *)

Definition total_beds (data : DataFrame) : Z := nunique (map bed_id data).

Definition occupied_beds (data : DataFrame) : Z := col_sum (map occupied data).

Definition available (data : DataFrame) : Z := total_beds data - occupied_beds data.

(** [(occupied / total_beds * 100) if total_beds else 0] *)
Definition occ_rate (data : DataFrame) : float :=
  if negb (total_beds data =? 0)
  then times100 (truediv (occupied_beds data) (total_beds data))
  else Finite (inject_Z 0).

(** ** Group-by *)

Section GroupBy.

Context {K : Type} (eqb leb : K -> K -> bool).

(** Insertion into an ascending list of distinct keys. *)
Fixpoint insert_key (k : K) (l : list K) : list K :=
  match l with
  | [] => [k]
  | x :: l' =>
      if eqb k x then l
      else if leb k x then k :: l
      else x :: insert_key k l'
  end.

(** The group keys of a column: distinct and ascending. *)
Definition group_keys (col : list K) : list K := fold_right insert_key [] col.

(** [data.groupby(key)]: each key that occurs, with its rows. *)
Definition groupby (key : BedRecord -> K) (data : DataFrame)
  : list (K * DataFrame) :=
  map (fun k => (k, filter (fun r => eqb (key r) k) data))
      (group_keys (map key data)).

End GroupBy.

(** A row of a [groupby(...).agg(total=nunique, occupied=sum)] frame with
    its percentage column. *)
Record AggRow (K : Type) : Type := mkAgg {
  agg_key : K;
  agg_occupied : Z;
  agg_total : Z;
  agg_pct : float
}.

Arguments mkAgg {K}.
Arguments agg_key {K}.
Arguments agg_occupied {K}.
Arguments agg_total {K}.
Arguments agg_pct {K}.

(** [agg(occupied=("occupied","sum"), total=("bed_id","nunique"))] followed
    by [pct = occupied / total * 100]. *)
Definition occupancy_agg {K : Type} (groups : list (K * DataFrame))
  : list (AggRow K) :=
  map (fun g =>
         let occ := col_sum (map occupied (snd g)) in
         let tot := nunique (map bed_id (snd g)) in
         mkAgg (fst g) occ tot (times100 (truediv occ tot)))
      groups.

(** ** The views *)

(** Graph 1 *)
Definition trend (data : DataFrame) : list (AggRow Timestamp) :=
  occupancy_agg (groupby ts_eqb ts_leb date data).

(** Graph 2 *)
Definition ward_util (data : DataFrame) : list (AggRow string) :=
  occupancy_agg (groupby String.eqb String.leb ward data).

(** Graph 3 *)
Definition hospital_util (data : DataFrame) : list (AggRow string) :=
  occupancy_agg (groupby String.eqb String.leb hospital data).

(** [lambda x: "Critical" if x in ["ICU", "Emergency"] else "Non-Critical"] *)
Definition category (r : BedRecord) : string :=
  if isin (ward r) critical_wards then "Critical" else "Non-Critical".

(** Graph 4 *)
Definition critical_cmp (data : DataFrame) : list (AggRow string) :=
  occupancy_agg (groupby String.eqb String.leb category data).

(** Graph 5: [data.groupby("date")["occupied"].sum()] *)
Definition daily_load (data : DataFrame) : list (Timestamp * Z) :=
  map (fun g => (fst g, col_sum (map occupied (snd g))))
      (groupby ts_eqb ts_leb date data).

(** [Series.map({0: "Available", 1: "Occupied"})]: a value outside the dict
    maps to a missing entry. *)
Definition status_label (o : Z) : option string :=
  if o =? 0 then Some "Available"
  else if o =? 1 then Some "Occupied"
  else None.

(** Dropping the missing entries of a column. *)
Fixpoint dropna (l : list (option string)) : list string :=
  match l with
  | [] => []
  | Some x :: l' => x :: dropna l'
  | None :: l' => dropna l'
  end.

(** Occurrences of [x] in a column. *)
Definition count_of (x : string) (l : list string) : Z :=
  Z.of_nat (List.length (filter (String.eqb x) l)).

(** Insertion into a list in descending order of count; an entry goes
    before the entries it ties with. *)
Fixpoint insert_desc (p : string * Z) (l : list (string * Z)) : list (string * Z) :=
  match l with
  | [] => [p]
  | q :: l' => if snd p <? snd q then q :: insert_desc p l' else p :: l
  end.

(** [Series.value_counts()]: the values that occur with their counts, most
    frequent first, missing entries dropped. *)
Definition value_counts (l : list (option string)) : list (string * Z) :=
  let vals := dropna l in
  fold_right insert_desc [] (map (fun x => (x, count_of x vals)) (unique vals)).

(** Graph 6 *)
Definition availability_dist (data : DataFrame) : list (string * Z) :=
  value_counts (map (fun r => status_label (occupied r)) data).

Definition pair_eqb (a b : string * string) : bool :=
  String.eqb (fst a) (fst b) && String.eqb (snd a) (snd b).

Definition pair_leb (a b : string * string) : bool :=
  String.ltb (fst a) (fst b)
  || (String.eqb (fst a) (fst b) && String.leb (snd a) (snd b)).

(** Graph 7: [groupby(["hospital", "ward"]).agg(occ=("occupied", "mean"))] *)
Definition heatmap (data : DataFrame) : list ((string * string) * float) :=
  map (fun g => (fst g, truediv (col_sum (map occupied (snd g)))
                                (Z.of_nat (List.length (snd g)))))
      (groupby pair_eqb pair_leb (fun r => (hospital r, ward r)) data).

(** The table: [data[["date", "hospital", "ward", "bed_id", "status"]]] *)
Definition live_table (data : DataFrame)
  : list (Timestamp * string * string * string * option string) :=
  map (fun r => (date r, hospital r, ward r, bed_id r,
                 match occupied r with
                 | 1 => Some "Occupied"
                 | 0 => Some "Available"
                 | _ => None
                 end))
      data.

(** ** Sidebar options and defaults *)

(** [Series.min()] on the date column; an empty column has no minimum. *)
Fixpoint ts_min (l : list Timestamp) : option Timestamp :=
  match l with
  | [] => None
  | x :: l' =>
      match ts_min l' with
      | None => Some x
      | Some m => Some (if ts_leb x m then x else m)
      end
  end.

(** [Series.max()] on the date column. *)
Fixpoint ts_max (l : list Timestamp) : option Timestamp :=
  match l with
  | [] => None
  | x :: l' =>
      match ts_max l' with
      | None => Some x
      | Some m => Some (if ts_leb m x then x else m)
      end
  end.

(** Insertion into an ascending list of strings. *)
Fixpoint insert_sorted (x : string) (l : list string) : list string :=
  match l with
  | [] => [x]
  | y :: l' => if String.leb x y then x :: l else y :: insert_sorted x l'
  end.

(** [sorted(xs)] on strings. *)
Definition sorted (l : list string) : list string := fold_right insert_sorted [] l.

(** The options of the hospital select box:
    [["All"] + sorted(df["hospital"].unique())]. *)
Definition hospital_options (df : DataFrame) : list string :=
  "All" :: sorted (unique (map hospital df)).

(** The options and the default of the ward multiselect:
    [df["ward"].unique()]. *)
Definition ward_options (df : DataFrame) : list string := unique (map ward df).

(** The ends of the date slider:
    [df["date"].min().date()] and [df["date"].max().date()]. *)
Definition date_bounds (df : DataFrame) : option (Z * Z) :=
  match ts_min (map date df), ts_max (map date df) with
  | Some lo, Some hi => Some (ts_date lo, ts_date hi)
  | _, _ => None
  end.

(** The widget values before the user touches the sidebar: the first option
    of the select box and of the radio, every ward, the box unticked and the
    whole slider. *)
Definition default_criteria (df : DataFrame) : option FilterCriteria :=
  match date_bounds df with
  | Some bounds => Some (mkCriteria "All" (ward_options df) "All" false bounds)
  | None => None
  end.

(** * Vocabulary of the properties *)

(** A linear congruential stream, used to run the generator on examples. *)
Definition lcg_next (g : Z) : Z := (g * 1103515245 + 12345) mod 2147483648.

Definition lcg_randint (g low high : Z) : Z * Z :=
  (low + lcg_next g mod (high - low), lcg_next g).

Definition LcgRandom : RandomState.
Proof.
  refine {| rng := Z;
            rng_seed := fun s => s;
            rng_randint := lcg_randint |}.
  intros g low high H. unfold lcg_randint. cbn [fst].
  pose proof (Z.mod_pos_bound (lcg_next g) (high - low)). lia.
Defined.

(** [zseq b n] is [b; b+1; ...; b+n-1]. *)
Definition zseq (b : Z) (n : nat) : list Z :=
  map (fun i => b + Z.of_nat i) (seq 0 n).

(** [1 if i < occupied else 0] *)
Definition slot_flag (occ i : Z) : Z := if i <? occ then 1 else 0.

(** The rows of a frame that belong to one (date, hospital, ward) triple, in
    frame order. *)
Definition group_rows (d : Timestamp) (h w : string) (df : DataFrame) : DataFrame :=
  filter (fun r => ts_eqb (date r) d && String.eqb (hospital r) h
                   && String.eqb (ward r) w) df.

(** The triples visited by the three nested loops, in loop order. *)
Definition groups (today : Timestamp) : list (Timestamp * (string * string)) :=
  list_prod (date_range_end today 30) (list_prod hospitals wards).

(** The rows appended by one run of the innermost loop started at counter
    value [b]. *)
Fixpoint rows_from (d : Timestamp) (h w : string) (occ b : Z) (l : list Z)
  : list BedRecord :=
  match l with
  | [] => []
  | i :: l' => mkBed d h w (bed_label b) (slot_flag occ i)
               :: rows_from d h w occ (b + 1) l'
  end.

Definition key_of (r : BedRecord) : Timestamp * (string * string) :=
  (date r, (hospital r, ward r)).

(** [rows] is what a run over the triples [gs] appends when it starts with
    the counter at [b]. *)
Record Generated (gs : list (Timestamp * (string * string))) (b : Z)
  (rows : list BedRecord) : Prop := {
  gen_ids : map bed_id rows = map bed_label (zseq b (List.length rows));
  gen_flags : forall r, In r rows -> occupied r = 0 \/ occupied r = 1;
  gen_keys : forall r, In r rows -> In (key_of r) gs;
  gen_groups : NoDup gs -> forall d h w, In (d, (h, w)) gs ->
    exists c occ,
      dict_get ward_capacity w = Some c /\ 0 < c /\ int_half c <= occ < c
      /\ map occupied (group_rows d h w rows) = map (slot_flag occ) (range c)
}.

(** A row with the time of day of its [date] replaced. *)
Definition restamp (tm : Z) (r : BedRecord) : BedRecord :=
  mkBed (mkTimestamp (ts_day (date r)) tm) (hospital r) (ward r) (bed_id r)
        (occupied r).

(** What a row shows once the time of day is dropped from its [date]. *)
Definition calendar_row (r : BedRecord) : Z * string * string * string * Z :=
  (ts_date (date r), hospital r, ward r, bed_id r, occupied r).

Definition restamp_key (tm : Z) (k : Timestamp * (string * string))
  : Timestamp * (string * string) :=
  (mkTimestamp (ts_day (fst k)) tm, snd k).

(** Two readings of the clock on 2024-01-30: 09:00 and 17:00. *)
Definition morning : Timestamp := mkTimestamp 738915 32400000000.
Definition evening : Timestamp := mkTimestamp 738915 61200000000.

Definition keep_hospital (c : FilterCriteria) (r : BedRecord) : bool :=
  if negb (String.eqb (c_hospital c) "All")
  then String.eqb (hospital r) (c_hospital c) else true.

Definition keep_ward (c : FilterCriteria) (r : BedRecord) : bool :=
  isin (ward r) (c_ward c).

Definition keep_critical (c : FilterCriteria) (r : BedRecord) : bool :=
  if c_critical_view c then isin (ward r) critical_wards else true.

Definition keep_status (c : FilterCriteria) (r : BedRecord) : bool :=
  if String.eqb (c_bed_status c) "Available" then occupied r =? 0
  else if String.eqb (c_bed_status c) "Occupied" then occupied r =? 1
  else true.

Definition keep_date (c : FilterCriteria) (r : BedRecord) : bool :=
  (fst (c_date_range c) <=? ts_date (date r))
  && (ts_date (date r) <=? snd (c_date_range c)).

Definition keep_row (c : FilterCriteria) (r : BedRecord) : bool :=
  keep_hospital c r && keep_ward c r && keep_critical c r && keep_status c r
  && keep_date c r.

(** A stage that keeps the rows satisfying a predicate of the row alone. *)
Definition row_filter (f : DataFrame -> DataFrame) : Prop :=
  exists p, forall data, f data = filter p data.

(** A small frame and selections for running the chain on examples. *)
Definition sample_frame : DataFrame :=
  [ mkBed morning "City Hospital" "ICU" "B-1" 1;
    mkBed morning "City Hospital" "ICU" "B-2" 0;
    mkBed morning "City Hospital" "General" "B-3" 1;
    mkBed morning "Central Hospital" "Emergency" "B-4" 1;
    mkBed morning "Central Hospital" "Maternity" "B-5" 0 ].

Definition sample_criteria : FilterCriteria :=
  mkCriteria "All" ["ICU"; "General"] "All" true (738886, 738915).

Definition no_ward_criteria : FilterCriteria :=
  mkCriteria "All" [] "All" false (738886, 738915).

(** Descending order of the count column. *)
Definition count_ge (p q : string * Z) : Prop := snd q <= snd p.

(** Rows of a frame whose flag is [o]. *)
Definition count_status (o : Z) (data : DataFrame) : Z :=
  Z.of_nat (List.length (filter (fun r => occupied r =? o) data)).

(** The status column of a frame with the missing entries dropped. *)
Definition status_values (data : DataFrame) : list string :=
  dropna (map (fun r => status_label (occupied r)) data).

(** City Hospital, ICU, occupied beds only, on 2024-01-30. *)
Definition occupied_only : FilterCriteria :=
  mkCriteria "City Hospital" ["ICU"] "Occupied" false (738915, 738915).

(** Every flag of the frame is 0 or 1. *)
Definition flags01 (data : DataFrame) : Prop :=
  forall r, In r data -> occupied r = 0 \/ occupied r = 1.

(** A finite percentage between 0 and 100. *)
Definition pct_in_range (x : float) : Prop :=
  exists q, x = Finite q /\ (0 <= q)%Q /\ (q <= inject_Z 100)%Q.

(** Strictly below in the order of a group-by key. *)
Definition key_lt {K : Type} (leb : K -> K -> bool) (a b : K) : Prop :=
  leb a b = true /\ a <> b.

(** The columns of a row that do not hold the occupancy flag. *)
Definition layout_row (r : BedRecord) : Timestamp * string * string * string :=
  (date r, hospital r, ward r, bed_id r).

(** The capacity of a ward, 0 for a name that is not a ward. *)
Definition capacity_or_zero (w : string) : Z :=
  match dict_get ward_capacity w with
  | Some c => c
  | None => 0
  end.

(** The non-flag columns of the rows appended for the triples [gs] when the
    counter starts at [b]. *)
Fixpoint layout (gs : list (Timestamp * (string * string))) (b : Z)
  : list (Timestamp * string * string * string) :=
  match gs with
  | [] => []
  | (d, (h, w)) :: gs' =>
      map (fun i => (d, h, w, bed_label (b + i))) (range (capacity_or_zero w))
      ++ layout gs' (b + capacity_or_zero w)
  end.

Section GeneratorVocabulary.

Context {R : RandomState}.

(** The rows appended for the triples [gs] by a run that starts with the
    stream in state [g] and the counter at [b]: one draw per triple, in
    order. *)
Fixpoint expected_rows (g : rng) (b : Z) (gs : list (Timestamp * (string * string)))
  : list BedRecord :=
  match gs with
  | [] => []
  | (d, (h, w)) :: gs' =>
      let c := capacity_or_zero w in
      let draw := rng_randint g (int_half c) c in
      rows_from d h w (fst draw) b (range c) ++ expected_rows (snd draw) (b + c) gs'
  end.

(** The body run for one triple of [groups]. *)
Definition group_body (k : Timestamp * (string * string)) : Gen unit :=
  ward_body (fst k) (fst (snd k)) (snd (snd k)).

Definition restamp_state (tm : Z) (s : GenState) : GenState :=
  mkGen (g_rng s) (g_bed_no s) (map (restamp tm) (g_data s)).

Definition restamp_result (tm : Z) (o : option (unit * GenState))
  : option (unit * GenState) :=
  match o with
  | Some (u, s) => Some (u, restamp_state tm s)
  | None => None
  end.

End GeneratorVocabulary.

(** * Properties *)

(** ** Lists of consecutive integers *)

Lemma zseq_S b n : zseq b (S n) = b :: zseq (b + 1) n.
Proof.
  unfold zseq. rewrite <- cons_seq. cbn [map]. f_equal; [lia|].
  rewrite <- seq_shift, map_map. apply map_ext. intros i. lia.
Qed.

Lemma zseq_app b n m : zseq b (n + m) = zseq b n ++ zseq (b + Z.of_nat n) m.
Proof.
  revert b. induction n as [|n IH]; intros b.
  - replace (b + Z.of_nat 0) with b by lia. reflexivity.
  - change (S n + m)%nat with (S (n + m)). rewrite !zseq_S, IH.
    replace (b + 1 + Z.of_nat n) with (b + Z.of_nat (S n)) by lia.
    reflexivity.
Qed.

Lemma in_zseq b n x : In x (zseq b n) <-> b <= x < b + Z.of_nat n.
Proof.
  unfold zseq. rewrite in_map_iff. split.
  - intros [i [<- Hi]]. apply in_seq in Hi. lia.
  - intros H. exists (Z.to_nat (x - b)). split; [lia|]. apply in_seq. lia.
Qed.

Lemma zseq_NoDup b n : NoDup (zseq b n).
Proof.
  unfold zseq. apply Finite.Injective_map_NoDup_in; [|apply seq_NoDup].
  intros x y _ _ H. cbv beta in H. lia.
Qed.

Lemma range_zseq n : range n = zseq 0 (Z.to_nat n).
Proof. reflexivity. Qed.

Lemma length_zseq b n : List.length (zseq b n) = n.
Proof. unfold zseq. now rewrite length_map, length_seq. Qed.

Lemma length_range n : 0 <= n -> Z.of_nat (List.length (range n)) = n.
Proof. intros H. rewrite range_zseq, length_zseq. lia. Qed.

(** ** Decimal labels are injective *)

Lemma to_int_proper z : Z.to_int z <> Decimal.Pos Decimal.Nil
                        /\ Z.to_int z <> Decimal.Neg Decimal.Nil.
Proof.
  destruct z as [|p|p]; cbn; split; try discriminate;
    intros [= H]; now apply (DecimalPos.Unsigned.to_uint_nonnil p).
Qed.

Lemma str_of_int_inj a b : str_of_int a = str_of_int b -> a = b.
Proof.
  unfold str_of_int. intros H.
  destruct (to_int_proper a) as [Ha1 Ha2], (to_int_proper b) as [Hb1 Hb2].
  pose proof (NilZero.isi _ Ha1 Ha2) as Ea.
  pose proof (NilZero.isi _ Hb1 Hb2) as Eb.
  rewrite H in Ea. rewrite Ea in Eb. injection Eb as Eb.
  rewrite <- (DecimalZ.of_to a), <- (DecimalZ.of_to b). now f_equal.
Qed.

Lemma bed_label_inj a b : bed_label a = bed_label b -> a = b.
Proof.
  unfold bed_label. cbn. intros [= H]. now apply str_of_int_inj.
Qed.

(** ** Groups of the generated frame *)

Lemma ts_eqb_eq a b : ts_eqb a b = true <-> a = b.
Proof.
  unfold ts_eqb. rewrite andb_true_iff, !Z.eqb_eq.
  destruct a, b; cbn. split; [intros [-> ->]|intros [= -> ->]]; auto.
Qed.

Lemma ts_eqb_refl a : ts_eqb a a = true.
Proof. now apply ts_eqb_eq. Qed.

Lemma group_rows_In d h w df r :
  In r (group_rows d h w df)
  <-> In r df /\ date r = d /\ hospital r = h /\ ward r = w.
Proof.
  unfold group_rows. rewrite filter_In, !andb_true_iff, ts_eqb_eq, !String.eqb_eq.
  tauto.
Qed.

Lemma group_rows_app d h w l1 l2 :
  group_rows d h w (l1 ++ l2) = group_rows d h w l1 ++ group_rows d h w l2.
Proof. apply filter_app. Qed.

Lemma group_rows_all d h w l :
  (forall r, In r l -> date r = d /\ hospital r = h /\ ward r = w) ->
  group_rows d h w l = l.
Proof.
  intros H. apply forallb_filter_id, forallb_forall. intros r Hr.
  destruct (H r Hr) as (-> & -> & ->).
  now rewrite ts_eqb_refl, !String.eqb_refl.
Qed.

Lemma group_rows_none d h w l :
  (forall r, In r l -> ~ (date r = d /\ hospital r = h /\ ward r = w)) ->
  group_rows d h w l = [].
Proof.
  intros H. destruct (group_rows d h w l) as [|r l'] eqn:E; [reflexivity|].
  assert (Hr : In r (group_rows d h w l)) by (rewrite E; now left).
  apply group_rows_In in Hr. destruct Hr as [Hr Hk]. now destruct (H r Hr).
Qed.

Lemma rows_from_key d h w occ b l r :
  In r (rows_from d h w occ b l) -> date r = d /\ hospital r = h /\ ward r = w.
Proof.
  revert b. induction l as [|i l IH]; intros b; cbn; [easy|].
  intros [<-|H]; [now cbn|eauto].
Qed.

Lemma rows_from_length d h w occ b l :
  List.length (rows_from d h w occ b l) = List.length l.
Proof. revert b. induction l; intros b; cbn; auto. Qed.

Lemma rows_from_bed_id d h w occ b l :
  map bed_id (rows_from d h w occ b l) = map bed_label (zseq b (List.length l)).
Proof.
  revert b. induction l as [|i l IH]; intros b; [reflexivity|].
  cbn [rows_from List.length map]. rewrite zseq_S, IH. reflexivity.
Qed.

Lemma rows_from_occupied d h w occ b l :
  map occupied (rows_from d h w occ b l) = map (slot_flag occ) l.
Proof. revert b. induction l as [|i l IH]; intros b; cbn; [|rewrite IH]; auto. Qed.

Lemma rows_from_flags d h w occ b l r :
  In r (rows_from d h w occ b l) -> occupied r = 0 \/ occupied r = 1.
Proof.
  revert b. induction l as [|i l IH]; intros b; cbn; [easy|].
  intros [<-|H]; [|eauto]. cbn. unfold slot_flag. destruct (i <? occ); auto.
Qed.

(** The flags of a group: [occ] ones, then zeros up to the capacity. *)
Lemma slot_flags_split occ c :
  0 <= occ <= c ->
  map (slot_flag occ) (range c)
  = repeat 1 (Z.to_nat occ) ++ repeat 0 (Z.to_nat (c - occ)).
Proof.
  intros H. rewrite range_zseq.
  replace (Z.to_nat c) with (Z.to_nat occ + Z.to_nat (c - occ))%nat by lia.
  rewrite zseq_app, map_app. f_equal.
  - assert (G : forall n b, b + Z.of_nat n <= occ ->
                map (slot_flag occ) (zseq b n) = repeat 1 n).
    { induction n as [|n IH]; intros b Hb; [reflexivity|].
      rewrite zseq_S. cbn [map repeat]. rewrite IH by lia.
      unfold slot_flag. destruct (Z.ltb_spec b occ); [reflexivity|lia]. }
    apply G. lia.
  - assert (G : forall n b, occ <= b ->
                map (slot_flag occ) (zseq b n) = repeat 0 n).
    { induction n as [|n IH]; intros b Hb; [reflexivity|].
      rewrite zseq_S. cbn [map repeat]. rewrite IH by lia.
      unfold slot_flag. destruct (Z.ltb_spec b occ); [lia|reflexivity]. }
    apply G. lia.
Qed.

Lemma NoDup_list_prod {A B} (l : list A) (l' : list B) :
  NoDup l -> NoDup l' -> NoDup (list_prod l l').
Proof.
  intros Hl Hl'. induction Hl as [|a l Ha Hl IH]; cbn; [constructor|].
  apply NoDup_app; [|exact IH|].
  - apply Finite.Injective_map_NoDup_in; [|exact Hl'].
    intros x y _ _ [= E]. exact E.
  - intros [x y] H1 H2. apply in_map_iff in H1. destruct H1 as [z [[= <- <-] _]].
    apply in_prod_iff in H2. tauto.
Qed.

Lemma hospitals_NoDup : NoDup hospitals.
Proof. repeat constructor; cbn; intuition discriminate. Qed.

Lemma wards_NoDup : NoDup wards.
Proof. repeat constructor; cbn; intuition discriminate. Qed.

Lemma date_range_end_NoDup t n : NoDup (date_range_end t n).
Proof.
  unfold date_range_end. apply Finite.Injective_map_NoDup_in.
  - intros x y _ _ [= E]. lia.
  - rewrite range_zseq. apply zseq_NoDup.
Qed.

Lemma groups_NoDup today : NoDup (groups today).
Proof.
  apply NoDup_list_prod; [apply date_range_end_NoDup|].
  apply NoDup_list_prod; [apply hospitals_NoDup|apply wards_NoDup].
Qed.

(** ** Running the loops *)

Section GeneratorFacts.

Context {R : RandomState}.

Lemma for_each_app {A} (l1 l2 : list A) (body : A -> Gen unit) s :
  for_each (l1 ++ l2) body s
  = match for_each l1 body s with
    | Some (_, s') => for_each l2 body s'
    | None => None
    end.
Proof.
  revert s. induction l1 as [|x l1 IH]; intros s; [reflexivity|].
  cbn. unfold bind. destruct (body x s) as [[[] s1]|]; [apply IH|reflexivity].
Qed.

Lemma for_each_map {A B} (f : A -> B) (l : list A) (body : B -> Gen unit) s :
  for_each (map f l) body s = for_each l (fun x => body (f x)) s.
Proof.
  revert s. induction l as [|x l IH]; intros s; [reflexivity|].
  cbn. unfold bind. destruct (body (f x) s) as [[[] s1]|]; [apply IH|reflexivity].
Qed.

Lemma for_each_ext {A} (l : list A) (body body' : A -> Gen unit) s :
  (forall x s0, body x s0 = body' x s0) ->
  for_each l body s = for_each l body' s.
Proof.
  intros E. revert s. induction l as [|x l IH]; intros s; [reflexivity|].
  cbn. unfold bind. rewrite E.
  destruct (body' x s) as [[[] s1]|]; [apply IH|reflexivity].
Qed.

(** Two nested loops visit the pairs of [list_prod] in order. *)
Lemma for_each_prod {A B} (l : list A) (l' : list B) (body : A -> B -> Gen unit) s :
  for_each l (fun a => for_each l' (body a)) s
  = for_each (list_prod l l') (fun p => body (fst p) (snd p)) s.
Proof.
  revert s. induction l as [|a l IH]; intros s; [reflexivity|].
  cbn [for_each list_prod]. rewrite for_each_app, for_each_map. cbn [fst snd].
  unfold bind.
  replace (for_each l' (fun x => body a x) s) with (for_each l' (body a) s)
    by reflexivity.
  destruct (for_each l' (body a) s) as [[[] s1]|]; [apply IH|reflexivity].
Qed.

Lemma generate_loops_groups today s :
  generate_loops today s = for_each (groups today) group_body s.
Proof.
  unfold generate_loops, groups.
  rewrite <- (for_each_prod _ _ (fun d p => ward_body d (fst p) (snd p))).
  apply for_each_ext. intros d s0.
  apply (for_each_prod hospitals wards (fun h w => ward_body d h w)).
Qed.

(** The innermost loop appends one row per slot and advances the counter. *)
Lemma for_each_append_bed d h w occ l s :
  for_each l (append_bed d h w occ) s
  = Some (tt, mkGen (g_rng s) (g_bed_no s + Z.of_nat (List.length l))
                (g_data s ++ rows_from d h w occ (g_bed_no s) l)).
Proof.
  revert s. induction l as [|i l IH]; intros s.
  - cbn. unfold ret. destruct s; cbn. rewrite app_nil_r. do 3 f_equal. lia.
  - cbn [for_each]. unfold bind. unfold append_bed at 1. rewrite IH.
    cbn [g_rng g_bed_no g_data rows_from List.length].
    rewrite <- app_assoc. cbn [app]. do 3 f_equal. lia.
Qed.

Lemma capacity_of_ward w :
  In w wards ->
  exists c, dict_get ward_capacity w = Some c /\ 0 < int_half c < c.
Proof.
  intros H. cbn in H.
  destruct H as [<-|[<-|[<-|[<-|[]]]]]; eexists; (split; [reflexivity|]);
    cbn; lia.
Qed.

(** One pass of the ward loop body: it cannot raise, draws one count within
    bounds and appends the rows of the group. *)
Lemma ward_body_run d h w s :
  In w wards ->
  exists c occ g',
    dict_get ward_capacity w = Some c /\ 0 < c /\ int_half c <= occ < c
    /\ ward_body d h w s
       = Some (tt, mkGen g' (g_bed_no s + c)
                     (g_data s ++ rows_from d h w occ (g_bed_no s) (range c))).
Proof.
  intros Hw. destruct (capacity_of_ward w Hw) as [c [Hc Hb]].
  pose proof (rng_randint_range (g_rng s) (int_half c) c (proj2 Hb)) as Hr.
  exists c, (fst (rng_randint (g_rng s) (int_half c) c)),
         (snd (rng_randint (g_rng s) (int_half c) c)).
  split; [exact Hc|]. split; [lia|]. split; [exact Hr|].
  unfold ward_body, bind, subscript. rewrite Hc. unfold ret, np_randint.
  destruct (Z.ltb_spec (int_half c) c) as [_|]; [|lia].
  destruct (rng_randint (g_rng s) (int_half c) c) as [v g'].
  rewrite for_each_append_bed. cbn [g_rng g_bed_no g_data fst snd].
  rewrite length_range by lia. reflexivity.
Qed.

End GeneratorFacts.

(** ** What the loops leave in [data] *)

Section GeneratedFacts.

Context {R : RandomState}.

Lemma run_groups gs : forall s,
  (forall k, In k gs -> In (snd (snd k)) wards) ->
  exists s' rows,
    for_each gs group_body s = Some (tt, s')
    /\ g_data s' = g_data s ++ rows
    /\ g_bed_no s' = g_bed_no s + Z.of_nat (List.length rows)
    /\ Generated gs (g_bed_no s) rows.
Proof.
  induction gs as [|[d [h w]] gs IH]; intros s Hw.
  - exists s, []. cbn. rewrite app_nil_r. repeat split; try lia; try easy.
  - destruct (ward_body_run d h w s) as (c & occ & g' & Hc & Hpos & Hocc & Hrun).
    { apply (Hw (d, (h, w))). now left. }
    set (s1 := mkGen g' (g_bed_no s + c)
                 (g_data s ++ rows_from d h w occ (g_bed_no s) (range c))) in *.
    destruct (IH s1) as (s' & rows & Hfor & Hdata & Hno & Hgen).
    { intros k Hk. apply Hw. now right. }
    set (blk := rows_from d h w occ (g_bed_no s) (range c)) in *.
    assert (Hlen : Z.of_nat (List.length blk) = c).
    { unfold blk. rewrite rows_from_length. apply length_range. lia. }
    exists s', (blk ++ rows). split; [|split; [|split]].
    + cbn [for_each]. unfold bind, group_body. cbn [fst snd]. now rewrite Hrun.
    + rewrite Hdata. unfold s1. cbn [g_data]. now rewrite app_assoc.
    + rewrite Hno. unfold s1. cbn [g_bed_no]. rewrite length_app. lia.
    + destruct Hgen as [Hids Hflags Hkeys Hgroups]. split.
      * rewrite map_app, length_app, zseq_app, map_app. f_equal.
        -- unfold blk. rewrite rows_from_bed_id, rows_from_length. reflexivity.
        -- rewrite Hids. unfold s1. cbn [g_bed_no]. now rewrite Hlen.
      * intros r Hr. apply in_app_or in Hr. destruct Hr as [Hr|Hr]; [|auto].
        now apply rows_from_flags in Hr.
      * intros r Hr. apply in_app_or in Hr. destruct Hr as [Hr|Hr].
        -- left. apply rows_from_key in Hr. destruct Hr as (<- & <- & <-).
           reflexivity.
        -- right. auto.
      * intros Hnd d0 h0 w0 Hin. apply NoDup_cons_iff in Hnd.
        destruct Hnd as [Hnotin Hnd]. rewrite group_rows_app.
        destruct Hin as [[= <- <- <-]|Hin].
        -- exists c, occ. repeat split; try lia; try assumption.
           rewrite (group_rows_all d h w blk).
           2:{ intros r Hr. now apply rows_from_key in Hr. }
           rewrite (group_rows_none d h w rows).
           2:{ intros r Hr (E1 & E2 & E3). apply Hnotin.
               apply Hkeys in Hr. unfold key_of in Hr.
               now rewrite E1, E2, E3 in Hr. }
           rewrite app_nil_r. apply rows_from_occupied.
        -- rewrite (group_rows_none d0 h0 w0 blk).
           2:{ intros r Hr (E1 & E2 & E3). apply rows_from_key in Hr.
               destruct Hr as (F1 & F2 & F3). apply Hnotin. congruence. }
           cbn [app]. now apply Hgroups.
Qed.

(** The generator cannot raise, and its frame is the run over [groups]
    started with the counter at 1. *)
Lemma generate_data_spec today :
  exists df, generate_data today = Some df /\ Generated (groups today) 1 df.
Proof.
  destruct (run_groups (groups today) (mkGen (rng_seed 42) 1 []))
    as (s' & rows & Hfor & Hdata & _ & Hgen).
  - intros [d [h w]] Hk. unfold groups in Hk.
    apply in_prod_iff in Hk. destruct Hk as [_ Hk].
    apply in_prod_iff in Hk. now destruct Hk.
  - exists rows. split; [|exact Hgen].
    unfold generate_data. rewrite generate_loops_groups, Hfor.
    now rewrite Hdata.
Qed.

End GeneratedFacts.

(** ** The generated frame *)

Section GeneratorClaims.

Context {R : RandomState}.

(** C1: the generator returns a frame in which every row belongs to a
    (date, hospital, ward) triple of the three loops, and every such triple
    has exactly as many rows as the fixed capacity of its ward: ICU 20,
    Emergency 30, General 50, Maternity 25. *)
Theorem group_row_count_is_capacity (today : Timestamp) :
  exists df,
    generate_data today = Some df
    /\ (forall r, In r df ->
          In (date r) (date_range_end today 30)
          /\ In (hospital r) hospitals /\ In (ward r) wards)
    /\ (forall d h w,
          In d (date_range_end today 30) -> In h hospitals -> In w wards ->
          dict_get ward_capacity w
          = Some (Z.of_nat (List.length (group_rows d h w df))))
    /\ ward_capacity
       = [("ICU", 20); ("Emergency", 30); ("General", 50); ("Maternity", 25)].
Proof.
  destruct (generate_data_spec today) as (df & Hdf & Hgen).
  exists df. split; [exact Hdf|]. split; [|split; [|reflexivity]].
  - intros r Hr. apply (gen_keys _ _ _ Hgen) in Hr. unfold key_of, groups in Hr.
    apply in_prod_iff in Hr. destruct Hr as [Hd Hr].
    apply in_prod_iff in Hr. tauto.
  - intros d h w Hd Hh Hw.
    destruct (gen_groups _ _ _ Hgen (groups_NoDup today) d h w)
      as (c & occ & Hc & Hpos & _ & Hocc).
    { unfold groups. apply in_prod_iff. split; [exact Hd|].
      apply in_prod_iff. now split. }
    rewrite Hc. f_equal.
    rewrite <- (length_map occupied), Hocc, length_map.
    symmetry. apply length_range. lia.
Qed.

(** C2: in every (date, hospital, ward) group of the generated frame the
    drawn count [occ] satisfies floor(capacity/2) <= occ < capacity, and in
    frame order the group's flags are [occ] ones followed by zeros for the
    remaining slots. *)
Theorem group_occupied_prefix (today : Timestamp) :
  exists df,
    generate_data today = Some df
    /\ forall d h w,
         In d (date_range_end today 30) -> In h hospitals -> In w wards ->
         exists capacity occ,
           dict_get ward_capacity w = Some capacity
           /\ capacity / 2 <= occ < capacity
           /\ map occupied (group_rows d h w df)
              = repeat 1 (Z.to_nat occ) ++ repeat 0 (Z.to_nat (capacity - occ)).
Proof.
  destruct (generate_data_spec today) as (df & Hdf & Hgen).
  exists df. split; [exact Hdf|]. intros d h w Hd Hh Hw.
  destruct (gen_groups _ _ _ Hgen (groups_NoDup today) d h w)
    as (c & occ & Hc & Hpos & Hb & Hocc).
  { unfold groups. apply in_prod_iff. split; [exact Hd|].
    apply in_prod_iff. now split. }
  assert (Hq : int_half c = c / 2).
  { unfold int_half. apply Z.quot_div_nonneg; lia. }
  assert (0 <= c / 2) by (apply Z.div_pos; lia).
  exists c, occ. split; [exact Hc|]. split; [lia|].
  rewrite Hocc. apply slot_flags_split. lia.
Qed.

(** C3: the bed ids of the generated frame are, in frame order, the labels
    of the counter values 1, 2, 3, ... up to the number of rows, so no two
    rows share a bed id. *)
Theorem bed_ids_globally_unique (today : Timestamp) :
  exists df,
    generate_data today = Some df
    /\ map bed_id df = map bed_label (zseq 1 (List.length df))
    /\ NoDup (map bed_id df).
Proof.
  destruct (generate_data_spec today) as (df & Hdf & Hgen).
  exists df. split; [exact Hdf|]. split; [apply (gen_ids _ _ _ Hgen)|].
  rewrite (gen_ids _ _ _ Hgen).
  apply Finite.Injective_map_NoDup_in; [|apply zseq_NoDup].
  intros x y _ _. apply bed_label_inj.
Qed.

End GeneratorClaims.

Lemma morning_in_window : In morning (date_range_end morning 30).
Proof. vm_compute. repeat (first [left; reflexivity | right]). Qed.

Lemma group_row_count_is_capacity_witness :
  exists df,
    generate_data (R := LcgRandom) morning = Some df
    /\ dict_get ward_capacity "ICU"
       = Some (Z.of_nat (List.length (group_rows morning "City Hospital" "ICU" df))).
Proof.
  destruct (group_row_count_is_capacity (R := LcgRandom) morning)
    as (df & Hdf & _ & Hg & _).
  exists df. split; [exact Hdf|]. apply Hg.
  - exact morning_in_window.
  - left. reflexivity.
  - left. reflexivity.
Defined.

Lemma group_occupied_prefix_witness :
  exists df,
    generate_data (R := LcgRandom) morning = Some df
    /\ exists capacity occ,
         dict_get ward_capacity "ICU" = Some capacity
         /\ capacity / 2 <= occ < capacity
         /\ map occupied (group_rows morning "City Hospital" "ICU" df)
            = repeat 1 (Z.to_nat occ) ++ repeat 0 (Z.to_nat (capacity - occ)).
Proof.
  destruct (group_occupied_prefix (R := LcgRandom) morning) as (df & Hdf & Hg).
  exists df. split; [exact Hdf|]. apply Hg.
  - exact morning_in_window.
  - left. reflexivity.
  - left. reflexivity.
Defined.

(** ** Dependence on the clock *)

Lemma calendar_row_restamp tm r : calendar_row (restamp tm r) = calendar_row r.
Proof. reflexivity. Qed.

Lemma rows_from_restamp tm d h w occ b l :
  map (restamp tm) (rows_from d h w occ b l)
  = rows_from (mkTimestamp (ts_day d) tm) h w occ b l.
Proof.
  revert b. induction l as [|i l IH]; intros b; [reflexivity|].
  cbn [rows_from map]. now rewrite IH.
Qed.

Lemma list_prod_map_l {A A' B} (f : A -> A') (l : list A) (l' : list B) :
  list_prod (map f l) l' = map (fun p => (f (fst p), snd p)) (list_prod l l').
Proof.
  induction l as [|a l IH]; [reflexivity|].
  cbn [map list_prod]. rewrite map_app, map_map, IH. reflexivity.
Qed.

Lemma groups_restamp (t1 t2 : Timestamp) :
  ts_date t1 = ts_date t2 ->
  groups t2 = map (restamp_key (ts_time t2)) (groups t1).
Proof.
  unfold ts_date. intros E. unfold groups.
  replace (date_range_end t2 30)
    with (map (fun d => mkTimestamp (ts_day d) (ts_time t2)) (date_range_end t1 30)).
  - rewrite list_prod_map_l. reflexivity.
  - unfold date_range_end. rewrite map_map. cbn [ts_day]. now rewrite E.
Qed.

Section ClockFacts.

Context {R : RandomState}.

Lemma ward_body_restamp tm d h w s :
  ward_body (mkTimestamp (ts_day d) tm) h w (restamp_state tm s)
  = restamp_result tm (ward_body d h w s).
Proof.
  unfold ward_body, bind, subscript.
  destruct (dict_get ward_capacity w) as [c|]; [|reflexivity].
  unfold ret, np_randint. cbn [g_rng restamp_state].
  destruct (int_half c <? c); [|reflexivity].
  destruct (rng_randint (g_rng s) (int_half c) c) as [v g'].
  rewrite !for_each_append_bed. cbn [restamp_result g_rng g_bed_no g_data].
  unfold restamp_state. cbn [g_rng g_bed_no g_data].
  now rewrite map_app, rows_from_restamp.
Qed.

Lemma for_each_restamp tm gs : forall s,
  for_each (map (restamp_key tm) gs) group_body (restamp_state tm s)
  = restamp_result tm (for_each gs group_body s).
Proof.
  induction gs as [|[d [h w]] gs IH]; intros s; [reflexivity|].
  cbn [map for_each]. unfold bind.
  change (group_body (restamp_key tm (d, (h, w))))
    with (ward_body (mkTimestamp (ts_day d) tm) h w).
  change (group_body (d, (h, w))) with (ward_body d h w).
  rewrite ward_body_restamp.
  destruct (ward_body d h w s) as [[[] s1]|]; [|reflexivity].
  cbn [restamp_result]. apply IH.
Qed.

(** Two runs on one calendar day: the later frame is the earlier one with
    its time of day replaced. *)
Lemma generate_data_restamp (t1 t2 : Timestamp) :
  ts_date t1 = ts_date t2 ->
  generate_data t2 = option_map (map (restamp (ts_time t2))) (generate_data t1).
Proof.
  intros E. unfold generate_data.
  rewrite !generate_loops_groups, (groups_restamp t1 t2 E).
  change (mkGen (rng_seed 42) 1 [])
    with (restamp_state (ts_time t2) (mkGen (rng_seed 42) 1 [])) at 1.
  rewrite for_each_restamp.
  destruct (for_each (groups t1) group_body (mkGen (rng_seed 42) 1 []))
    as [[[] s]|]; reflexivity.
Qed.

(** C4, as the code has it: two runs on the same calendar day both return a
    frame, the two frames agree row by row on calendar date, hospital, ward,
    bed id and flag, every row carries the time of day of its own run, and
    the frames are equal when the two runs read the same time of day. *)
Theorem same_day_runs_agree_up_to_time (t1 t2 : Timestamp) :
  ts_date t1 = ts_date t2 ->
  exists df1 df2,
    generate_data t1 = Some df1 /\ generate_data t2 = Some df2
    /\ map calendar_row df1 = map calendar_row df2
    /\ (forall r, In r df1 -> ts_time (date r) = ts_time t1)
    /\ (forall r, In r df2 -> ts_time (date r) = ts_time t2)
    /\ (ts_time t1 = ts_time t2 -> df1 = df2).
Proof.
  intros E.
  destruct (generate_data_spec t1) as (df1 & H1 & _).
  pose proof (generate_data_restamp t1 t2 E) as H2.
  pose proof (generate_data_restamp t2 t1 (eq_sym E)) as H1'.
  rewrite H1 in H2. cbn [option_map] in H2.
  rewrite H2, H1 in H1'. cbn [option_map] in H1'. injection H1' as H1'.
  exists df1, (map (restamp (ts_time t2)) df1).
  split; [exact H1|]. split; [exact H2|]. split; [|split; [|split]].
  - rewrite map_map. apply map_ext. intros r. now rewrite calendar_row_restamp.
  - intros r Hr. rewrite H1' in Hr. apply in_map_iff in Hr.
    destruct Hr as [r' [<- _]]. reflexivity.
  - intros r Hr. apply in_map_iff in Hr. destruct Hr as [r' [<- _]]. reflexivity.
  - intros Et. rewrite H1' at 1. rewrite map_map.
    apply map_ext. intros r. unfold restamp. cbn. now rewrite Et.
Qed.

End ClockFacts.

(** Every row of the generated frame carries the time of day of the run,
    and the frame is not empty. *)
Lemma generated_rows_time {R : RandomState} (today : Timestamp) :
  exists df,
    generate_data today = Some df
    /\ df <> []
    /\ forall r, In r df ->
         ts_time (date r) = ts_time today
         /\ ts_day today - 29 <= ts_day (date r) <= ts_day today.
Proof.
  destruct (generate_data_spec today) as (df & Hdf & Hgen).
  exists df. split; [exact Hdf|]. split.
  - destruct (gen_groups _ _ _ Hgen (groups_NoDup today) today
                "City Hospital" "ICU") as (c & occ & Hc & _ & _ & Hocc).
    { unfold groups. apply in_prod_iff. split.
      - unfold date_range_end. apply in_map_iff. exists 29. split.
        + destruct today; cbn. f_equal. lia.
        + rewrite range_zseq. apply in_zseq. cbn. lia.
      - apply in_prod_iff. cbn. auto. }
    injection Hc as <-. intros ->. discriminate Hocc.
  - intros r Hr. apply (gen_keys _ _ _ Hgen) in Hr. unfold key_of, groups in Hr.
    apply in_prod_iff in Hr. destruct Hr as [Hd _].
    unfold date_range_end in Hd. apply in_map_iff in Hd.
    destruct Hd as [k [<- Hk]]. rewrite range_zseq in Hk.
    apply in_zseq in Hk. cbn in *. lia.
Qed.

(** C4 fails as stated: two runs with seed 42 on the same calendar day, at
    09:00 and at 17:00, return different frames. *)
Lemma same_day_runs_differ :
  ts_date morning = ts_date evening
  /\ generate_data (R := LcgRandom) morning
     <> generate_data (R := LcgRandom) evening.
Proof.
  split; [reflexivity|]. intros H.
  destruct (generated_rows_time (R := LcgRandom) morning) as (df & H1 & Hne & Ht1).
  destruct (generated_rows_time (R := LcgRandom) evening) as (df' & H2 & _ & Ht2).
  rewrite H1, H2 in H. injection H as <-.
  destruct df as [|r df]; [now apply Hne|].
  destruct (Ht1 r) as [E1 _]; [now left|].
  destruct (Ht2 r) as [E2 _]; [now left|].
  rewrite E1 in E2. discriminate E2.
Qed.

Lemma same_day_runs_agree_up_to_time_witness :
  ts_date morning = ts_date evening
  /\ exists df1 df2,
       generate_data (R := LcgRandom) morning = Some df1
       /\ generate_data (R := LcgRandom) evening = Some df2
       /\ map calendar_row df1 = map calendar_row df2
       /\ (forall r, In r df1 -> ts_time (date r) = ts_time morning)
       /\ (forall r, In r df2 -> ts_time (date r) = ts_time evening)
       /\ (ts_time morning = ts_time evening -> df1 = df2).
Proof.
  split; [reflexivity|].
  apply (same_day_runs_agree_up_to_time (R := LcgRandom) morning evening).
  reflexivity.
Defined.

(** ** The filter chain as one row predicate *)

Lemma filter_true {A} (rows : list A) : filter (fun _ => true) rows = rows.
Proof. induction rows as [|x rows IH]; cbn; [|rewrite IH]; reflexivity. Qed.

Lemma filter_filter {A} (p q : A -> bool) (l : list A) :
  filter p (filter q l) = filter (fun x => q x && p x) l.
Proof.
  induction l as [|x l IH]; [reflexivity|].
  cbn. destruct (q x); cbn; [destruct (p x)|]; now rewrite IH.
Qed.

Lemma filter_swap {A} (p q : A -> bool) (l : list A) :
  filter p (filter q l) = filter q (filter p l).
Proof.
  rewrite !filter_filter. apply filter_ext. intros x. apply andb_comm.
Qed.

Lemma filter_hospital_keep c data :
  filter_hospital c data = filter (keep_hospital c) data.
Proof.
  unfold filter_hospital, keep_hospital.
  destruct (negb (c_hospital c =? "All")%string);
    [reflexivity|now rewrite filter_true].
Qed.

Lemma filter_ward_keep c data : filter_ward c data = filter (keep_ward c) data.
Proof. reflexivity. Qed.

Lemma filter_critical_keep c data :
  filter_critical c data = filter (keep_critical c) data.
Proof.
  unfold filter_critical, keep_critical.
  destruct (c_critical_view c); [reflexivity|now rewrite filter_true].
Qed.

Lemma filter_status_keep c data :
  filter_status c data = filter (keep_status c) data.
Proof.
  unfold filter_status, keep_status.
  destruct (c_bed_status c =? "Available")%string; [reflexivity|].
  destruct (c_bed_status c =? "Occupied")%string;
    [reflexivity|now rewrite filter_true].
Qed.

Lemma filter_date_keep c data : filter_date c data = filter (keep_date c) data.
Proof. reflexivity. Qed.

Lemma apply_filters_keep c df : apply_filters c df = filter (keep_row c) df.
Proof.
  unfold apply_filters.
  rewrite filter_hospital_keep, filter_ward_keep, filter_critical_keep,
    filter_status_keep, filter_date_keep, !filter_filter.
  apply filter_ext. intros r. unfold keep_row. now rewrite !andb_assoc.
Qed.

Lemma filter_stages_row_filters c : Forall row_filter (filter_stages c).
Proof.
  unfold filter_stages. repeat constructor.
  - exists (keep_hospital c). apply filter_hospital_keep.
  - exists (keep_ward c). apply filter_ward_keep.
  - exists (keep_critical c). apply filter_critical_keep.
  - exists (keep_status c). apply filter_status_keep.
  - exists (keep_date c). apply filter_date_keep.
Qed.

Lemma run_stages_permutation (l l' : list (DataFrame -> DataFrame)) :
  Permutation l l' -> Forall row_filter l ->
  forall df, run_stages l df = run_stages l' df.
Proof.
  induction 1 as [|f l l' _ IH|f g l|l l' l'' H1 IH1 H2 IH2]; intros HF df.
  - reflexivity.
  - cbn. apply IH. now inversion HF.
  - cbn. f_equal. inversion HF as [|? ? [p Hp] HF']; subst.
    inversion HF' as [|? ? [q Hq] _]; subst.
    rewrite !Hp, !Hq. apply filter_swap.
  - rewrite IH1 by exact HF. apply IH2.
    apply Forall_forall. intros f Hf. rewrite Forall_forall in HF.
    apply HF. apply Permutation_in with (l := l'); [|exact Hf].
    now apply Permutation_sym.
Qed.

(** ** Filtering *)

(** C5: running the five filter stages in any order gives the frame that the
    source order gives. *)
Theorem filter_order_irrelevant (c : FilterCriteria) (df : DataFrame)
  (order : list (DataFrame -> DataFrame)) :
  Permutation order (filter_stages c) ->
  run_stages order df = apply_filters c df.
Proof.
  intros HP. change (apply_filters c df) with (run_stages (filter_stages c) df).
  symmetry. apply run_stages_permutation; [now apply Permutation_sym|].
  apply filter_stages_row_filters.
Qed.

Lemma filter_order_irrelevant_witness :
  Permutation (rev (filter_stages sample_criteria)) (filter_stages sample_criteria)
  /\ run_stages (rev (filter_stages sample_criteria)) sample_frame
     = apply_filters sample_criteria sample_frame.
Proof.
  split.
  - apply Permutation_sym, Permutation_rev.
  - apply (filter_order_irrelevant sample_criteria sample_frame).
    apply Permutation_sym, Permutation_rev.
Defined.

Lemma isin_In x l : isin x l = true <-> In x l.
Proof.
  unfold isin. rewrite existsb_exists. split.
  - intros [y [Hy E]]. apply String.eqb_eq in E. now subst.
  - intros H. exists x. split; [exact H|apply String.eqb_refl].
Qed.

Lemma filter_none {A} (p : A -> bool) (l : list A) :
  (forall x, In x l -> p x = false) -> filter p l = [].
Proof.
  induction l as [|x l IH]; intros H; [reflexivity|].
  cbn. rewrite (H x) by now left. apply IH. intros y Hy. apply H. now right.
Qed.

(** C6: with an empty ward selection the filtered frame is empty, each of
    the eight views computed from it is empty, and the KPI percentage is 0;
    every stage is a total function, so nothing is raised. *)
Theorem empty_ward_selection (c : FilterCriteria) (df : DataFrame) :
  c_ward c = [] ->
  apply_filters c df = []
  /\ trend (apply_filters c df) = []
  /\ ward_util (apply_filters c df) = []
  /\ hospital_util (apply_filters c df) = []
  /\ critical_cmp (apply_filters c df) = []
  /\ daily_load (apply_filters c df) = []
  /\ availability_dist (apply_filters c df) = []
  /\ heatmap (apply_filters c df) = []
  /\ live_table (apply_filters c df) = []
  /\ occ_rate (apply_filters c df) = Finite (inject_Z 0).
Proof.
  intros Hw.
  assert (E : apply_filters c df = []).
  { rewrite apply_filters_keep. apply filter_none. intros r _.
    unfold keep_row, keep_ward. rewrite Hw. cbn.
    now rewrite andb_false_r. }
  rewrite E. repeat split.
Qed.

Lemma empty_ward_selection_witness :
  c_ward no_ward_criteria = []
  /\ apply_filters no_ward_criteria sample_frame = []
  /\ trend (apply_filters no_ward_criteria sample_frame) = []
  /\ ward_util (apply_filters no_ward_criteria sample_frame) = []
  /\ hospital_util (apply_filters no_ward_criteria sample_frame) = []
  /\ critical_cmp (apply_filters no_ward_criteria sample_frame) = []
  /\ daily_load (apply_filters no_ward_criteria sample_frame) = []
  /\ availability_dist (apply_filters no_ward_criteria sample_frame) = []
  /\ heatmap (apply_filters no_ward_criteria sample_frame) = []
  /\ live_table (apply_filters no_ward_criteria sample_frame) = []
  /\ occ_rate (apply_filters no_ward_criteria sample_frame) = Finite (inject_Z 0).
Proof.
  split; [reflexivity|].
  apply (empty_ward_selection no_ward_criteria sample_frame). reflexivity.
Defined.

Lemma critical_of_icu_general w :
  isin w ["ICU"; "General"] && isin w critical_wards = String.eqb w "ICU".
Proof.
  unfold isin, critical_wards. cbn [existsb].
  destruct (String.eqb_spec w "ICU") as [->|_]; [reflexivity|].
  destruct (String.eqb_spec w "General") as [->|_]; [reflexivity|].
  reflexivity.
Qed.

(** C7: with the critical-only flag set, every row that survives the chain
    has its ward both in the selected wards and in {ICU, Emergency}; the ward
    stage followed by the critical stage keeps exactly the rows whose ward is
    in both; with ICU and General selected that is exactly the ICU rows. *)
Theorem critical_view_intersects_selection (c : FilterCriteria) (df : DataFrame) :
  c_critical_view c = true ->
  (forall r, In r (apply_filters c df) ->
     In (ward r) (c_ward c) /\ In (ward r) critical_wards)
  /\ filter_critical c (filter_ward c df)
     = filter (fun r => isin (ward r) (c_ward c) && isin (ward r) critical_wards) df
  /\ (c_ward c = ["ICU"; "General"] ->
      filter_critical c (filter_ward c df)
      = filter (fun r => String.eqb (ward r) "ICU") df).
Proof.
  intros Hc.
  assert (E : filter_critical c (filter_ward c df)
              = filter (fun r => isin (ward r) (c_ward c)
                                 && isin (ward r) critical_wards) df).
  { unfold filter_critical, filter_ward. rewrite Hc. apply filter_filter. }
  split; [|split; [exact E|]].
  - intros r Hr. rewrite apply_filters_keep in Hr. apply filter_In in Hr.
    destruct Hr as [_ Hr]. unfold keep_row, keep_ward, keep_critical in Hr.
    rewrite Hc in Hr. rewrite !andb_true_iff in Hr.
    destruct Hr as [[[[_ Hw] Hk] _] _]. now rewrite <- !isin_In.
  - intros Hw. rewrite E, Hw. apply filter_ext. intros r.
    apply critical_of_icu_general.
Qed.

Lemma critical_view_intersects_selection_witness :
  c_critical_view sample_criteria = true
  /\ (forall r, In r (apply_filters sample_criteria sample_frame) ->
        In (ward r) (c_ward sample_criteria) /\ In (ward r) critical_wards)
  /\ filter_critical sample_criteria (filter_ward sample_criteria sample_frame)
     = filter (fun r => isin (ward r) (c_ward sample_criteria)
                        && isin (ward r) critical_wards) sample_frame
  /\ (c_ward sample_criteria = ["ICU"; "General"] ->
      filter_critical sample_criteria (filter_ward sample_criteria sample_frame)
      = filter (fun r => String.eqb (ward r) "ICU") sample_frame).
Proof.
  split; [reflexivity|].
  apply (critical_view_intersects_selection sample_criteria sample_frame).
  reflexivity.
Defined.

(** ** Distinct values and value counts *)

Lemma unique_In x l : In x (unique l) <-> In x l.
Proof.
  induction l as [|y l IH]; [reflexivity|].
  cbn [unique In]. rewrite filter_In, IH, negb_true_iff, String.eqb_neq.
  destruct (string_dec y x) as [->|N]; [tauto|].
  split; [tauto|]. intros [H|H]; [tauto|]. right. split; [exact H|].
  intros ->. now apply N.
Qed.

Lemma unique_NoDup l : NoDup (unique l).
Proof.
  induction l as [|y l IH]; [constructor|].
  cbn [unique]. constructor; [|now apply NoDup_filter].
  rewrite filter_In, negb_true_iff, String.eqb_neq. tauto.
Qed.

(** A column without repetition is its own list of distinct values. *)
Lemma unique_of_NoDup l : NoDup l -> unique l = l.
Proof.
  induction 1 as [|x l Hx Hl IH]; [reflexivity|].
  cbn [unique]. rewrite IH. f_equal.
  apply forallb_filter_id, forallb_forall. intros y Hy.
  apply negb_true_iff, String.eqb_neq. intros ->. now apply Hx.
Qed.

Lemma count_of_pos x l : In x l <-> 0 < count_of x l.
Proof.
  unfold count_of. split.
  - intros H.
    assert (G : In x (filter (String.eqb x) l)).
    { apply filter_In. split; [exact H|apply String.eqb_refl]. }
    destruct (filter (String.eqb x) l); [easy|cbn; lia].
  - intros H. destruct (filter (String.eqb x) l) as [|y l'] eqn:E; [cbn in H; lia|].
    assert (G : In y (filter (String.eqb x) l)) by (rewrite E; now left).
    apply filter_In in G. destruct G as [G1 G2].
    apply String.eqb_eq in G2. now subst.
Qed.

Lemma insert_desc_perm p l : Permutation (insert_desc p l) (p :: l).
Proof.
  induction l as [|q l IH]; [reflexivity|].
  cbn. destruct (snd p <? snd q); [|reflexivity].
  rewrite IH. apply perm_swap.
Qed.

Lemma sort_desc_perm l : Permutation (fold_right insert_desc [] l) l.
Proof.
  induction l as [|p l IH]; [reflexivity|].
  cbn. rewrite insert_desc_perm. now constructor.
Qed.

Lemma insert_desc_sorted p l :
  Sorted count_ge l -> Sorted count_ge (insert_desc p l).
Proof.
  induction 1 as [|q l Hs IH Hh]; [repeat constructor|].
  cbn. destruct (Z.ltb_spec (snd p) (snd q)) as [Hlt|Hge].
  - constructor; [exact IH|].
    destruct l as [|q' l]; cbn.
    + constructor. unfold count_ge. lia.
    + destruct (snd p <? snd q'); constructor.
      * now inversion Hh.
      * unfold count_ge. lia.
  - constructor; [now constructor|]. constructor. exact Hge.
Qed.

Lemma sort_desc_sorted l : Sorted count_ge (fold_right insert_desc [] l).
Proof.
  induction l as [|p l IH]; [constructor|]. cbn. now apply insert_desc_sorted.
Qed.

Lemma status_values_cons r data :
  status_values (r :: data)
  = match status_label (occupied r) with
    | Some s => s :: status_values data
    | None => status_values data
    end.
Proof. unfold status_values. cbn. now destruct (status_label (occupied r)). Qed.

Lemma status_values_In s data :
  In s (status_values data) -> s = "Available" \/ s = "Occupied".
Proof.
  induction data as [|r data IH]; [easy|].
  rewrite status_values_cons. unfold status_label.
  destruct (occupied r =? 0); [intros [<-|H]; auto|].
  destruct (occupied r =? 1); [intros [<-|H]; auto|auto].
Qed.

Lemma count_of_cons x y l :
  count_of x (y :: l) = (if String.eqb x y then 1 else 0) + count_of x l.
Proof.
  unfold count_of. cbn [filter]. destruct (String.eqb x y); cbn [List.length]; lia.
Qed.

Lemma count_status_cons o r data :
  count_status o (r :: data)
  = (if occupied r =? o then 1 else 0) + count_status o data.
Proof.
  unfold count_status. cbn [filter].
  destruct (occupied r =? o); cbn [List.length]; lia.
Qed.

Lemma count_available data :
  count_of "Available" (status_values data) = count_status 0 data.
Proof.
  induction data as [|r data IH]; [reflexivity|].
  rewrite status_values_cons, count_status_cons. unfold status_label.
  destruct (Z.eqb_spec (occupied r) 0) as [E|N].
  - rewrite count_of_cons, IH. reflexivity.
  - destruct (occupied r =? 1); [rewrite count_of_cons|]; rewrite IH; reflexivity.
Qed.

Lemma count_occupied data :
  count_of "Occupied" (status_values data) = count_status 1 data.
Proof.
  induction data as [|r data IH]; [reflexivity|].
  rewrite status_values_cons, count_status_cons. unfold status_label.
  destruct (Z.eqb_spec (occupied r) 0) as [E|N].
  - rewrite count_of_cons, IH, E. reflexivity.
  - destruct (occupied r =? 1); [rewrite count_of_cons|]; rewrite IH; reflexivity.
Qed.

(** ** Availability distribution *)

(** C9, as the code has it: the view has one row per status that occurs in
    the filtered frame, holding the raw count of the rows with that status;
    a status without rows gets no row, so there are at most two rows, no
    status twice, the larger count first. *)
Theorem availability_dist_rows (data : DataFrame) :
  (forall s n,
     In (s, n) (availability_dist data)
     <-> 0 < n /\ ((s = "Available" /\ n = count_status 0 data)
                   \/ (s = "Occupied" /\ n = count_status 1 data)))
  /\ NoDup (map fst (availability_dist data))
  /\ (List.length (availability_dist data) <= 2)%nat
  /\ Sorted count_ge (availability_dist data).
Proof.
  unfold availability_dist, value_counts.
  fold (status_values data). set (vals := status_values data).
  set (tbl := map (fun x => (x, count_of x vals)) (unique vals)).
  pose proof (sort_desc_perm tbl) as HP.
  assert (Hfst : map fst tbl = unique vals).
  { unfold tbl. rewrite map_map. cbn. apply map_id. }
  assert (Hin : forall s n, In (s, n) tbl <-> In s vals /\ n = count_of s vals).
  { intros s n. unfold tbl. rewrite in_map_iff. split.
    - intros [x [[= <- <-] Hx]]. rewrite unique_In in Hx. auto.
    - intros [Hs ->]. exists s. split; [reflexivity|now apply unique_In]. }
  split; [|split; [|split]].
  - intros s n. split.
    + intros H. apply (Permutation_in _ HP) in H. apply Hin in H.
      destruct H as [Hs ->]. split; [now apply count_of_pos|].
      destruct (status_values_In s data Hs) as [->| ->];
        [left; split; [reflexivity|apply count_available]
        |right; split; [reflexivity|apply count_occupied]].
    + intros [Hn Hs]. apply (Permutation_in _ (Permutation_sym HP)).
      apply Hin.
      destruct Hs as [[-> ->]|[-> ->]].
      * rewrite <- count_available in Hn |- *. fold vals in Hn |- *.
        split; [now apply count_of_pos|reflexivity].
      * rewrite <- count_occupied in Hn |- *. fold vals in Hn |- *.
        split; [now apply count_of_pos|reflexivity].
  - apply (Permutation_NoDup (Permutation_sym (Permutation_map fst HP))).
    rewrite Hfst. apply unique_NoDup.
  - rewrite (Permutation_length HP), <- (length_map fst), Hfst.
    apply (NoDup_incl_length (l' := ["Available"; "Occupied"])).
    + apply unique_NoDup.
    + intros s Hs. rewrite unique_In in Hs.
      destruct (status_values_In s data Hs) as [->| ->]; cbn; auto.
  - apply sort_desc_sorted.
Qed.

(** ** Sums and distinct counts on generated rows *)

Lemma NoDup_map_filter {A B} (col : A -> B) (keep : A -> bool) (rows : list A) :
  NoDup (map col rows) -> NoDup (map col (filter keep rows)).
Proof.
  induction rows as [|x rows IH]; [easy|]. cbn [map filter]. intros H.
  apply NoDup_cons_iff in H. destruct H as [Hx Hl].
  destruct (keep x); [|auto]. cbn [map]. constructor; [|auto].
  intros Hin. apply Hx. apply in_map_iff in Hin.
  destruct Hin as [y [E Hy]]. apply filter_In in Hy.
  apply in_map_iff. exists y. tauto.
Qed.

Lemma nunique_NoDup l : NoDup l -> nunique l = Z.of_nat (List.length l).
Proof. intros H. unfold nunique. now rewrite unique_of_NoDup. Qed.

Lemma flags01_filter p data : flags01 data -> flags01 (filter p data).
Proof. intros H r Hr. apply filter_In in Hr. now apply H. Qed.

Lemma col_sum_flags data :
  flags01 data ->
  col_sum (map occupied data) = count_status 1 data
  /\ Z.of_nat (List.length data) = count_status 0 data + count_status 1 data.
Proof.
  induction data as [|r data IH]; intros H; [now cbn|].
  destruct IH as [IH1 IH2]; [intros x Hx; apply H; now right|].
  rewrite !count_status_cons. cbn [map col_sum fold_right List.length].
  fold (col_sum (map occupied data)). rewrite IH1.
  destruct (H r) as [E|E]; [now left| |]; rewrite E; cbn [Z.eqb Pos.eqb]; lia.
Qed.

Lemma count_status_nonneg o data : 0 <= count_status o data.
Proof. unfold count_status. lia. Qed.

(** ** Percentages *)

Lemma pct_bounds occ tot :
  0 <= occ <= tot -> 1 <= tot -> pct_in_range (times100 (truediv occ tot)).
Proof.
  intros Ho Ht. unfold truediv.
  destruct (Z.eqb_spec tot 0) as [E|_]; [lia|].
  cbn [times100]. eexists. split; [reflexivity|].
  destruct tot as [|p|p]; try lia.
  unfold Qle, Qdiv, Qmult, Qinv, inject_Z. cbn.
  rewrite ?Pos.mul_1_r. split; nia.
Qed.

Section GroupFacts.

Context {K : Type} (eqb leb : K -> K -> bool).

Lemma insert_key_In k x l : In k (insert_key eqb leb x l) -> k = x \/ In k l.
Proof.
  induction l as [|y l IH]; cbn.
  - intros [<-|[]]. now left.
  - destruct (eqb x y); [auto|]. destruct (leb x y).
    + intros [<-|H]; auto.
    + intros [<-|H]; [auto|]. destruct (IH H); auto.
Qed.

Lemma group_keys_In k col : In k (group_keys eqb leb col) -> In k col.
Proof.
  induction col as [|x col IH]; [easy|]. cbn.
  intros H. apply insert_key_In in H. destruct H as [->|H]; auto.
Qed.

(** Every group of a group-by is the set of rows of a key that occurs. *)
Lemma groupby_In (key : BedRecord -> K) data g :
  In g (groupby eqb leb key data) ->
  (exists r, In r data /\ key r = fst g)
  /\ snd g = filter (fun r => eqb (key r) (fst g)) data.
Proof.
  unfold groupby. intros H. apply in_map_iff in H.
  destruct H as [k [<- Hk]]. cbn [fst snd]. split; [|reflexivity].
  apply group_keys_In in Hk. apply in_map_iff in Hk.
  destruct Hk as [r [E Hr]]. now exists r.
Qed.

(** In a frame with distinct bed ids and 0/1 flags every aggregate row
    stands for at least one bed and its percentage is within bounds. *)
Lemma occupancy_agg_rows (key : BedRecord -> K) data row :
  (forall k, eqb k k = true) ->
  NoDup (map bed_id data) -> flags01 data ->
  In row (occupancy_agg (groupby eqb leb key data)) ->
  1 <= agg_total row /\ pct_in_range (agg_pct row).
Proof.
  intros Hrefl Hnd Hfl H. unfold occupancy_agg in H. apply in_map_iff in H.
  destruct H as [g [<- Hg]]. cbn [agg_total agg_pct].
  apply groupby_In in Hg. destruct Hg as [[r [Hr Hk]] Hrows].
  destruct g as [k rows]. cbn [fst snd] in *.
  assert (Hin : In r rows).
  { rewrite Hrows. apply filter_In. split; [exact Hr|]. rewrite Hk. apply Hrefl. }
  assert (Htot : nunique (map bed_id rows) = Z.of_nat (List.length rows)).
  { rewrite <- (length_map bed_id). apply nunique_NoDup.
    rewrite Hrows. now apply NoDup_map_filter. }
  destruct (col_sum_flags rows) as [Hs Hl];
    [rewrite Hrows; now apply flags01_filter|].
  pose proof (count_status_nonneg 0 rows).
  pose proof (count_status_nonneg 1 rows).
  assert (1 <= Z.of_nat (List.length rows)).
  { destruct rows; [easy|cbn [List.length]; lia]. }
  rewrite Htot. split; [lia|]. apply pct_bounds; lia.
Qed.

End GroupFacts.

(** ** A selection that leaves one status *)

Lemma col_sum_app l1 l2 : col_sum (l1 ++ l2) = col_sum l1 + col_sum l2.
Proof.
  induction l1 as [|x l1 IH]; [reflexivity|].
  cbn [app col_sum fold_right]. fold (col_sum (l1 ++ l2)) (col_sum l1). lia.
Qed.

Lemma col_sum_repeat x n : col_sum (repeat x n) = x * Z.of_nat n.
Proof.
  induction n as [|n IH]; [cbn; lia|].
  cbn [repeat col_sum fold_right]. fold (col_sum (repeat x n)). lia.
Qed.

Lemma status_values_occupied data :
  (forall r, In r data -> occupied r = 1) ->
  status_values data = repeat "Occupied" (List.length data).
Proof.
  induction data as [|r data IH]; intros H; [reflexivity|].
  rewrite status_values_cons, (H r) by now left.
  cbn. f_equal. apply IH. intros x Hx. apply H. now right.
Qed.

Lemma unique_repeat x n : unique (repeat x (S n)) = [x].
Proof.
  cbn [repeat unique]. f_equal. apply filter_none. intros y Hy.
  rewrite unique_In in Hy. apply repeat_spec in Hy. subst.
  now rewrite String.eqb_refl.
Qed.

Lemma count_of_repeat x n : count_of x (repeat x n) = Z.of_nat n.
Proof.
  induction n as [|n IH]; [reflexivity|].
  cbn [repeat]. rewrite count_of_cons, String.eqb_refl, IH. lia.
Qed.

(** A frame that holds occupied rows only has a one-row view. *)
Lemma availability_dist_occupied data :
  data <> [] -> (forall r, In r data -> occupied r = 1) ->
  availability_dist data = [("Occupied", Z.of_nat (List.length data))].
Proof.
  intros Hne H. unfold availability_dist, value_counts.
  fold (status_values data). rewrite (status_values_occupied data H).
  destruct data as [|r data]; [now destruct Hne|].
  cbn [List.length]. rewrite unique_repeat. cbn [map fold_right insert_desc].
  now rewrite count_of_repeat.
Qed.

(** With City Hospital, ICU, "Occupied" and the last day selected, the
    filtered frame is the occupied part of one group. *)
Lemma occupied_only_view {R : RandomState} :
  exists df n,
    generate_data morning = Some df
    /\ 10 <= n < 20
    /\ availability_dist (apply_filters occupied_only df) = [("Occupied", n)].
Proof.
  destruct (generate_data_spec morning) as (df & Hdf & Hgen).
  destruct (generated_rows_time morning) as (df' & Hdf' & _ & Htime).
  rewrite Hdf in Hdf'. injection Hdf' as <-.
  set (grp := group_rows morning "City Hospital" "ICU" df).
  assert (E : apply_filters occupied_only df
              = filter (fun r => occupied r =? 1) grp).
  { rewrite apply_filters_keep. unfold grp, group_rows. rewrite filter_filter.
    apply filter_ext_in. intros r Hr. destruct (Htime r Hr) as [Et Ed].
    unfold keep_row, keep_hospital, keep_ward, keep_critical, keep_status,
      keep_date, occupied_only, isin, ts_eqb, ts_date.
    cbn [c_hospital c_ward c_bed_status c_critical_view c_date_range fst snd
         existsb negb String.eqb Ascii.eqb Bool.eqb].
    rewrite Et. cbn [morning ts_day ts_time] in *.
    rewrite Z.eqb_refl, orb_false_r, !andb_true_r.
    destruct (Z.eqb_spec (ts_day (date r)) 738915) as [->|N].
    - cbn. now rewrite !andb_true_r.
    - destruct (Z.leb_spec 738915 (ts_day (date r))); [|now rewrite !andb_false_r].
      destruct (Z.leb_spec (ts_day (date r)) 738915); [lia|].
      now rewrite !andb_false_r. }
  destruct (gen_groups _ _ _ Hgen (groups_NoDup morning) morning
              "City Hospital" "ICU") as (c & occ & Hc & _ & Hb & Hocc).
  { unfold groups. apply in_prod_iff. split.
    - unfold date_range_end. apply in_map_iff. exists 29. split; [reflexivity|].
      rewrite range_zseq. apply in_zseq. cbn. lia.
    - apply in_prod_iff. cbn. auto. }
  injection Hc as <-. fold grp in Hocc. cbn in Hb.
  assert (Hfl : flags01 grp).
  { unfold grp, group_rows. apply flags01_filter. exact (gen_flags _ _ _ Hgen). }
  destruct (col_sum_flags grp Hfl) as [Hs _].
  rewrite Hocc, slot_flags_split, col_sum_app, !col_sum_repeat in Hs by lia.
  exists df, occ. split; [exact Hdf|]. split; [lia|].
  rewrite E, availability_dist_occupied.
  - fold (count_status 1 grp). f_equal. f_equal. lia.
  - intros Hnil. assert (Hz : count_status 1 grp = 0).
    { unfold count_status. now rewrite Hnil. }
    lia.
  - intros r Hr. apply filter_In in Hr. destruct Hr as [_ Hr].
    now apply Z.eqb_eq.
Qed.

(** C9 fails as stated: with City Hospital, ICU, the last day and the
    status filter on "Occupied" selected, the view of the filtered frame has
    the single row ("Occupied", n), n being the count drawn for that group. *)
Lemma availability_dist_single_row :
  exists df n,
    generate_data (R := LcgRandom) morning = Some df
    /\ 10 <= n < 20
    /\ availability_dist (apply_filters occupied_only df) = [("Occupied", n)]
    /\ List.length (availability_dist (apply_filters occupied_only df)) <> 2%nat.
Proof.
  destruct (occupied_only_view (R := LcgRandom)) as (df & n & Hdf & Hn & Hv).
  exists df, n. split; [exact Hdf|]. split; [exact Hn|]. split; [exact Hv|].
  rewrite Hv. discriminate.
Qed.

(** ** KPIs and views on the generated frame *)

Section PipelineClaims.

Context {R : RandomState}.

(** Whatever is selected, the filtered frame keeps distinct bed ids and 0/1
    flags. *)
Lemma filtered_generated today c :
  exists df,
    generate_data today = Some df
    /\ NoDup (map bed_id (apply_filters c df))
    /\ flags01 (apply_filters c df).
Proof.
  destruct (generate_data_spec today) as (df & Hdf & Hgen).
  exists df. split; [exact Hdf|]. rewrite apply_filters_keep. split.
  - apply NoDup_map_filter. rewrite (gen_ids _ _ _ Hgen).
    apply Finite.Injective_map_NoDup_in; [|apply zseq_NoDup].
    intros x y _ _. apply bed_label_inj.
  - apply flags01_filter. exact (gen_flags _ _ _ Hgen).
Qed.

Lemma kpi_counts data :
  NoDup (map bed_id data) -> flags01 data ->
  total_beds data = Z.of_nat (List.length data)
  /\ occupied_beds data = count_status 1 data
  /\ available data = count_status 0 data.
Proof.
  intros Hnd Hfl. unfold available, total_beds, occupied_beds.
  rewrite (nunique_NoDup _ Hnd), length_map.
  destruct (col_sum_flags data Hfl) as [Hs Hl]. rewrite Hs. lia.
Qed.

(** C8: for every selection, on the generated frame, the KPI percentage is
    between 0 and 100 and is exactly 0 when the total is 0; every row of the
    trend, ward, hospital and critical views stands for at least one bed, so
    no group has total 0, and its percentage is between 0 and 100. *)
Theorem occupancy_pct_in_range (today : Timestamp) (c : FilterCriteria) :
  exists df,
    generate_data today = Some df
    /\ pct_in_range (occ_rate (apply_filters c df))
    /\ (total_beds (apply_filters c df) = 0 ->
        occ_rate (apply_filters c df) = Finite (inject_Z 0))
    /\ (forall row, In row (trend (apply_filters c df)) ->
          1 <= agg_total row /\ pct_in_range (agg_pct row))
    /\ (forall row, In row (ward_util (apply_filters c df)) ->
          1 <= agg_total row /\ pct_in_range (agg_pct row))
    /\ (forall row, In row (hospital_util (apply_filters c df)) ->
          1 <= agg_total row /\ pct_in_range (agg_pct row))
    /\ (forall row, In row (critical_cmp (apply_filters c df)) ->
          1 <= agg_total row /\ pct_in_range (agg_pct row)).
Proof.
  destruct (filtered_generated today c) as (df & Hdf & Hnd & Hfl).
  exists df. split; [exact Hdf|].
  set (data := apply_filters c df) in *.
  destruct (kpi_counts data Hnd Hfl) as (Ht & Ho & _).
  destruct (col_sum_flags data Hfl) as [_ Hl].
  pose proof (count_status_nonneg 0 data).
  pose proof (count_status_nonneg 1 data).
  split; [|split; [|split; [|split; [|split]]]].
  - unfold occ_rate. destruct (Z.eqb_spec (total_beds data) 0) as [E|N]; cbn [negb].
    + exists (inject_Z 0). repeat split; unfold Qle; cbn; lia.
    + apply pct_bounds; lia.
  - intros E. unfold occ_rate. now rewrite E.
  - intros row Hrow.
    now apply (occupancy_agg_rows ts_eqb ts_leb date data row ts_eqb_refl).
  - intros row Hrow.
    now apply (occupancy_agg_rows String.eqb String.leb ward data row
                 String.eqb_refl).
  - intros row Hrow.
    now apply (occupancy_agg_rows String.eqb String.leb hospital data row
                 String.eqb_refl).
  - intros row Hrow.
    now apply (occupancy_agg_rows String.eqb String.leb category data row
                 String.eqb_refl).
Qed.

(** C10: for every selection, on the generated frame, the KPI total (the
    number of distinct bed ids of the filtered frame) is its row count, and
    the KPI available count is the number of its rows whose flag is 0. *)
Theorem kpi_total_is_row_count (today : Timestamp) (c : FilterCriteria) :
  exists df,
    generate_data today = Some df
    /\ total_beds (apply_filters c df)
       = Z.of_nat (List.length (apply_filters c df))
    /\ available (apply_filters c df) = count_status 0 (apply_filters c df).
Proof.
  destruct (filtered_generated today c) as (df & Hdf & Hnd & Hfl).
  exists df. split; [exact Hdf|].
  destruct (kpi_counts _ Hnd Hfl) as (Ht & _ & Ha). now split.
Qed.

End PipelineClaims.

Lemma occupancy_pct_in_range_witness :
  exists df,
    generate_data (R := LcgRandom) morning = Some df
    /\ pct_in_range (occ_rate (apply_filters sample_criteria df))
    /\ (total_beds (apply_filters sample_criteria df) = 0 ->
        occ_rate (apply_filters sample_criteria df) = Finite (inject_Z 0))
    /\ (forall row, In row (ward_util (apply_filters sample_criteria df)) ->
          1 <= agg_total row /\ pct_in_range (agg_pct row)).
Proof.
  destruct (occupancy_pct_in_range (R := LcgRandom) morning sample_criteria)
    as (df & Hdf & Hk & Hz & _ & Hw & _).
  exists df. split; [exact Hdf|]. split; [exact Hk|]. split; [exact Hz|exact Hw].
Defined.

(** ** The chain and the views on the small frame *)

Example sample_chain_keeps_icu :
  map bed_id (apply_filters sample_criteria sample_frame) = ["B-1"; "B-2"].
Proof. reflexivity. Qed.

Example sample_availability :
  availability_dist sample_frame = [("Occupied", 3); ("Available", 2)].
Proof. reflexivity. Qed.

Example sample_critical_cmp :
  map (fun row => (agg_key row, agg_occupied row, agg_total row))
      (critical_cmp sample_frame)
  = [("Critical", 2, 3); ("Non-Critical", 1, 2)].
Proof. reflexivity. Qed.

Example sample_kpi :
  (total_beds sample_frame, occupied_beds sample_frame, available sample_frame)
  = (5, 3, 2).
Proof. reflexivity. Qed.

Example sample_occupied_only :
  availability_dist (filter_status occupied_only sample_frame) = [("Occupied", 3)].
Proof. reflexivity. Qed.

(** * Further properties of the filter chain *)

(** X1: a row is in the filtered frame exactly when it is a row of the base
    frame and passes the five tests: hospital, selected wards, critical wards
    when the box is ticked, bed status, and the inclusive date range on the
    calendar day. *)
Theorem apply_filters_In (c : FilterCriteria) (df : DataFrame) (r : BedRecord) :
  In r (apply_filters c df)
  <-> In r df
      /\ (c_hospital c = "All" \/ hospital r = c_hospital c)
      /\ In (ward r) (c_ward c)
      /\ (c_critical_view c = true -> ward r = "ICU" \/ ward r = "Emergency")
      /\ (c_bed_status c = "Available" -> occupied r = 0)
      /\ (c_bed_status c = "Occupied" -> occupied r = 1)
      /\ fst (c_date_range c) <= ts_date (date r) <= snd (c_date_range c).
Proof.
  rewrite apply_filters_keep, filter_In. unfold keep_row.
  rewrite !andb_true_iff.
  assert (Hh : keep_hospital c r = true
               <-> c_hospital c = "All" \/ hospital r = c_hospital c).
  { unfold keep_hospital.
    destruct (String.eqb_spec (c_hospital c) "All") as [E|N]; cbn [negb].
    - tauto.
    - rewrite String.eqb_eq. tauto. }
  assert (Hw : keep_ward c r = true <-> In (ward r) (c_ward c))
    by apply isin_In.
  assert (Hc : keep_critical c r = true
               <-> (c_critical_view c = true ->
                    ward r = "ICU" \/ ward r = "Emergency")).
  { unfold keep_critical. destruct (c_critical_view c).
    - rewrite isin_In. cbn. intuition.
    - intuition discriminate. }
  assert (Hs : keep_status c r = true
               <-> (c_bed_status c = "Available" -> occupied r = 0)
                   /\ (c_bed_status c = "Occupied" -> occupied r = 1)).
  { unfold keep_status.
    destruct (String.eqb_spec (c_bed_status c) "Available") as [E|N].
    - rewrite Z.eqb_eq, E. intuition discriminate.
    - destruct (String.eqb_spec (c_bed_status c) "Occupied") as [E'|N'].
      + rewrite Z.eqb_eq. intuition.
      + intuition. }
  assert (Hd : keep_date c r = true
               <-> fst (c_date_range c) <= ts_date (date r) <= snd (c_date_range c)).
  { unfold keep_date. rewrite andb_true_iff, !Z.leb_le. tauto. }
  rewrite Hh, Hw, Hc, Hs, Hd. tauto.
Qed.

(** X2: filtering an already filtered frame with the same selection changes
    nothing, and filtering with two selections gives the same frame in
    either order. *)
Theorem apply_filters_idempotent_commute (c c' : FilterCriteria) (df : DataFrame) :
  apply_filters c (apply_filters c df) = apply_filters c df
  /\ apply_filters c (apply_filters c' df) = apply_filters c' (apply_filters c df).
Proof.
  rewrite !apply_filters_keep. split.
  - rewrite filter_filter. apply filter_ext. intros r. now destruct (keep_row c r).
  - apply filter_swap.
Qed.

(** X3: a date range whose start lies after its end leaves no row. *)
Theorem inverted_date_range_empty (c : FilterCriteria) (df : DataFrame) :
  snd (c_date_range c) < fst (c_date_range c) ->
  apply_filters c df = [].
Proof.
  intros H. rewrite apply_filters_keep. apply filter_none. intros r _.
  unfold keep_row, keep_date.
  destruct (Z.leb_spec (fst (c_date_range c)) (ts_date (date r)));
    destruct (Z.leb_spec (ts_date (date r)) (snd (c_date_range c)));
    try lia; cbn; now rewrite ?andb_false_r.
Qed.

(** X4: with the critical box ticked and neither ICU nor Emergency among the
    selected wards, the filtered frame is empty and the KPI percentage is 0. *)
Theorem critical_without_critical_ward_empty (c : FilterCriteria) (df : DataFrame) :
  c_critical_view c = true ->
  ~ In "ICU" (c_ward c) -> ~ In "Emergency" (c_ward c) ->
  apply_filters c df = []
  /\ occ_rate (apply_filters c df) = Finite (inject_Z 0).
Proof.
  intros Hc Hi He.
  assert (E : apply_filters c df = []).
  { rewrite apply_filters_keep. apply filter_none. intros r _.
    unfold keep_row, keep_ward, keep_critical. rewrite Hc.
    destruct (isin (ward r) (c_ward c)) eqn:Ew;
      [|now rewrite andb_false_r].
    destruct (isin (ward r) critical_wards) eqn:Ek;
      [|now rewrite !andb_false_r].
    apply isin_In in Ew. apply isin_In in Ek. cbn in Ek.
    destruct Ek as [E|[E|[]]]; rewrite <- E in Ew; contradiction. }
  rewrite E. split; reflexivity.
Qed.

(** ** KPIs under the bed status filter *)

Lemma kept_available c r :
  c_bed_status c = "Available" -> keep_row c r = true -> occupied r = 0.
Proof.
  intros E H. unfold keep_row, keep_status in H. rewrite E in H.
  cbn in H. rewrite !andb_true_iff in H. lia.
Qed.

Lemma kept_occupied c r :
  c_bed_status c = "Occupied" -> keep_row c r = true -> occupied r = 1.
Proof.
  intros E H. unfold keep_row, keep_status in H. rewrite E in H.
  cbn in H. rewrite !andb_true_iff in H. lia.
Qed.

Lemma col_sum_const v data :
  (forall r, In r data -> occupied r = v) ->
  col_sum (map occupied data) = v * Z.of_nat (List.length data).
Proof.
  induction data as [|r data IH]; intros H; [cbn; lia|].
  cbn [map col_sum fold_right List.length].
  fold (col_sum (map occupied data)).
  rewrite IH by (intros x Hx; apply H; now right).
  rewrite (H r) by now left. lia.
Qed.

Lemma pct_of_zero tot :
  tot <> 0 -> exists q, times100 (truediv 0 tot) = Finite q /\ (q == 0)%Q.
Proof.
  intros N. unfold truediv. destruct (Z.eqb_spec tot 0); [contradiction|].
  eexists. split; [reflexivity|].
  unfold Qeq, Qdiv, Qmult, Qinv, inject_Z. destruct tot; cbn; lia.
Qed.

Lemma pct_of_all n :
  1 <= n -> exists q, times100 (truediv n n) = Finite q /\ (q == inject_Z 100)%Q.
Proof.
  intros H. unfold truediv. destruct (Z.eqb_spec n 0); [lia|].
  eexists. split; [reflexivity|].
  unfold Qeq, Qdiv, Qmult, Qinv, inject_Z. destruct n; try lia. cbn.
  rewrite ?Pos.mul_1_r. lia.
Qed.

(** X5: with bed status "Available" selected the KPIs of the filtered frame
    show no occupied bed: the occupied count is 0, the available count is
    the total, and the percentage is a finite value equal to 0. *)
Theorem kpi_available_only (c : FilterCriteria) (df : DataFrame) :
  c_bed_status c = "Available" ->
  occupied_beds (apply_filters c df) = 0
  /\ available (apply_filters c df) = total_beds (apply_filters c df)
  /\ exists q, occ_rate (apply_filters c df) = Finite q /\ (q == 0)%Q.
Proof.
  intros E.
  assert (Ho : occupied_beds (apply_filters c df) = 0).
  { unfold occupied_beds. rewrite (col_sum_const 0); [lia|].
    intros r Hr. rewrite apply_filters_keep in Hr. apply filter_In in Hr.
    now apply (kept_available c). }
  split; [exact Ho|]. split; [unfold available; lia|].
  unfold occ_rate. rewrite Ho.
  destruct (Z.eqb_spec (total_beds (apply_filters c df)) 0) as [Z0|N]; cbn [negb].
  - exists (inject_Z 0). split; reflexivity.
  - now apply pct_of_zero.
Qed.

Section StatusKpi.

Context {R : RandomState}.

(** X6: with bed status "Occupied" selected, on the generated frame the
    occupied count equals the total, no bed is available, and the percentage
    is 100 as soon as one row is left. *)
Theorem kpi_occupied_only (today : Timestamp) (c : FilterCriteria) :
  c_bed_status c = "Occupied" ->
  exists df,
    generate_data today = Some df
    /\ occupied_beds (apply_filters c df) = total_beds (apply_filters c df)
    /\ available (apply_filters c df) = 0
    /\ (apply_filters c df <> [] ->
        exists q, occ_rate (apply_filters c df) = Finite q
                  /\ (q == inject_Z 100)%Q).
Proof.
  intros E.
  destruct (filtered_generated today c) as (df & Hdf & Hnd & Hfl).
  exists df. split; [exact Hdf|].
  set (data := apply_filters c df) in *.
  destruct (kpi_counts data Hnd Hfl) as (Ht & _ & _).
  assert (Ho : occupied_beds data = Z.of_nat (List.length data)).
  { unfold occupied_beds. rewrite (col_sum_const 1); [lia|].
    intros r Hr. unfold data in Hr. rewrite apply_filters_keep in Hr.
    apply filter_In in Hr. now apply (kept_occupied c). }
  split; [lia|]. split; [unfold available; lia|].
  intros Hne. unfold occ_rate. rewrite Ho, Ht.
  assert (1 <= Z.of_nat (List.length data)).
  { destruct data; [now destruct Hne|cbn [List.length]; lia]. }
  destruct (Z.eqb_spec (Z.of_nat (List.length data)) 0); [lia|]. cbn [negb].
  now apply pct_of_all.
Qed.

End StatusKpi.

Lemma kpi_available_only_witness :
  c_bed_status (mkCriteria "All" wards "Available" false (738886, 738915))
  = "Available"
  /\ occupied_beds
       (apply_filters (mkCriteria "All" wards "Available" false (738886, 738915))
          sample_frame) = 0.
Proof.
  split; [reflexivity|].
  apply (kpi_available_only
           (mkCriteria "All" wards "Available" false (738886, 738915))
           sample_frame).
  reflexivity.
Defined.

Lemma kpi_occupied_only_witness :
  c_bed_status occupied_only = "Occupied"
  /\ exists df,
       generate_data (R := LcgRandom) morning = Some df
       /\ occupied_beds (apply_filters occupied_only df)
          = total_beds (apply_filters occupied_only df)
       /\ available (apply_filters occupied_only df) = 0
       /\ (apply_filters occupied_only df <> [] ->
           exists q, occ_rate (apply_filters occupied_only df) = Finite q
                     /\ (q == inject_Z 100)%Q).
Proof.
  split; [reflexivity|].
  apply (kpi_occupied_only (R := LcgRandom) morning occupied_only).
  reflexivity.
Defined.

Lemma inverted_date_range_empty_witness :
  snd (c_date_range (mkCriteria "All" wards "All" false (738915, 738886)))
  < fst (c_date_range (mkCriteria "All" wards "All" false (738915, 738886)))
  /\ apply_filters (mkCriteria "All" wards "All" false (738915, 738886))
       sample_frame = [].
Proof.
  split; [reflexivity|].
  apply (inverted_date_range_empty
           (mkCriteria "All" wards "All" false (738915, 738886)) sample_frame).
  reflexivity.
Defined.

Lemma critical_without_critical_ward_empty_witness :
  c_critical_view (mkCriteria "All" ["General"; "Maternity"] "All" true
                     (738886, 738915)) = true
  /\ apply_filters (mkCriteria "All" ["General"; "Maternity"] "All" true
                      (738886, 738915)) sample_frame = []
  /\ occ_rate (apply_filters (mkCriteria "All" ["General"; "Maternity"] "All" true
                                (738886, 738915)) sample_frame)
     = Finite (inject_Z 0).
Proof.
  split; [reflexivity|].
  apply (critical_without_critical_ward_empty
           (mkCriteria "All" ["General"; "Maternity"] "All" true (738886, 738915))
           sample_frame).
  - reflexivity.
  - cbn. intros [H|[H|[]]]; discriminate H.
  - cbn. intros [H|[H|[]]]; discriminate H.
Defined.

(** * Further properties of the group-by views *)

(** ** The orders of the keys *)

Lemma ascii_compare_refl a : Ascii.compare a a = Eq.
Proof. unfold Ascii.compare. apply N.compare_refl. Qed.

Lemma ascii_compare_lt_trans a b c :
  Ascii.compare a b = Lt -> Ascii.compare b c = Lt -> Ascii.compare a c = Lt.
Proof.
  unfold Ascii.compare. rewrite !N.compare_lt_iff. apply N.lt_trans.
Qed.

Lemma string_compare_refl s : String.compare s s = Eq.
Proof.
  induction s as [|a s IH]; [reflexivity|].
  cbn. now rewrite ascii_compare_refl.
Qed.

Lemma string_compare_lt_trans s1 : forall s2 s3,
  String.compare s1 s2 = Lt -> String.compare s2 s3 = Lt ->
  String.compare s1 s3 = Lt.
Proof.
  induction s1 as [|a s1 IH]; intros [|b s2] [|c s3]; cbn; try easy.
  destruct (Ascii.compare a b) eqn:Eab; try easy;
    destruct (Ascii.compare b c) eqn:Ebc; try easy; intros H1 H2.
  - apply Ascii.compare_eq_iff in Eab, Ebc. subst.
    rewrite ascii_compare_refl. eauto.
  - apply Ascii.compare_eq_iff in Eab. subst. now rewrite Ebc.
  - apply Ascii.compare_eq_iff in Ebc. subst. now rewrite Eab.
  - now rewrite (ascii_compare_lt_trans a b c).
Qed.

Lemma string_leb_trans s1 s2 s3 :
  String.leb s1 s2 = true -> String.leb s2 s3 = true -> String.leb s1 s3 = true.
Proof.
  unfold String.leb.
  destruct (String.compare s1 s2) eqn:E12; try easy;
    destruct (String.compare s2 s3) eqn:E23; try easy; intros _ _.
  - apply String.compare_eq_iff in E12, E23. subst.
    now rewrite string_compare_refl.
  - apply String.compare_eq_iff in E12. subst. now rewrite E23.
  - apply String.compare_eq_iff in E23. subst. now rewrite E12.
  - now rewrite (string_compare_lt_trans s1 s2 s3).
Qed.

Lemma ts_leb_total a b : ts_leb a b = true \/ ts_leb b a = true.
Proof.
  unfold ts_leb.
  destruct (Z.ltb_spec (ts_day a) (ts_day b)); [now left|].
  destruct (Z.ltb_spec (ts_day b) (ts_day a)); [now right|].
  destruct (Z.eqb_spec (ts_day a) (ts_day b)); [|lia].
  destruct (Z.eqb_spec (ts_day b) (ts_day a)); [|lia].
  destruct (Z.leb_spec (ts_time a) (ts_time b)); [now left|].
  destruct (Z.leb_spec (ts_time b) (ts_time a)); [now right|lia].
Qed.

Lemma ts_leb_le a b :
  ts_leb a b = true
  <-> ts_day a < ts_day b \/ (ts_day a = ts_day b /\ ts_time a <= ts_time b).
Proof.
  unfold ts_leb. rewrite orb_true_iff, andb_true_iff, Z.ltb_lt, Z.eqb_eq, Z.leb_le.
  tauto.
Qed.

Lemma ts_leb_antisym a b : ts_leb a b = true -> ts_leb b a = true -> a = b.
Proof.
  rewrite !ts_leb_le. destruct a, b; cbn. intros H1 H2.
  f_equal; lia.
Qed.

Lemma ts_leb_trans a b c :
  ts_leb a b = true -> ts_leb b c = true -> ts_leb a c = true.
Proof. rewrite !ts_leb_le. lia. Qed.

(** ** Keys of a group-by *)

Lemma col_sum_cons x l : col_sum (x :: l) = x + col_sum l.
Proof. reflexivity. Qed.

Lemma col_sum_zero {A} (l : list A) : col_sum (map (fun _ => 0) l) = 0.
Proof. induction l as [|x l IH]; [reflexivity|]. cbn [map]. now rewrite col_sum_cons, IH. Qed.

Lemma col_sum_plus {A} (f g : A -> Z) (l : list A) :
  col_sum (map (fun x => f x + g x) l) = col_sum (map f l) + col_sum (map g l).
Proof.
  induction l as [|x l IH]; [reflexivity|].
  cbn [map]. rewrite !col_sum_cons, IH. lia.
Qed.


Section GroupOrder.

Context {K : Type} (eqb leb : K -> K -> bool).
Hypothesis eqb_eq : forall a b, eqb a b = true <-> a = b.
Hypothesis leb_total : forall a b, leb a b = true \/ leb b a = true.
Hypothesis leb_antisym : forall a b, leb a b = true -> leb b a = true -> a = b.
Hypothesis leb_trans :
  forall a b c, leb a b = true -> leb b c = true -> leb a c = true.

Lemma key_lt_trans a b c : key_lt leb a b -> key_lt leb b c -> key_lt leb a c.
Proof.
  intros [H1 N1] [H2 N2]. split; [eauto|].
  intros ->. apply N1. now apply leb_antisym.
Qed.

Lemma insert_key_complete k x l :
  k = x \/ In k l -> In k (insert_key eqb leb x l).
Proof.
  induction l as [|y l IH]; cbn.
  - intros [->|[]]. now left.
  - destruct (eqb x y) eqn:E.
    + apply eqb_eq in E. subst. intros [->|H]; [now left|exact H].
    + destruct (leb x y).
      * intros [->|H]; [now left|now right].
      * intros [->|[->|H]]; [right; apply IH; now left|now left|].
        right. apply IH. now right.
Qed.

Lemma insert_key_sorted x l :
  StronglySorted (key_lt leb) l ->
  StronglySorted (key_lt leb) (insert_key eqb leb x l).
Proof.
  induction 1 as [|y l Hs IH Hy]; [repeat constructor|].
  cbn. destruct (eqb x y) eqn:E; [now constructor|].
  assert (Nxy : x <> y).
  { intros ->. assert (eqb y y = true) by now apply eqb_eq. congruence. }
  destruct (leb x y) eqn:L.
  - constructor; [now constructor|]. constructor; [now split|].
    rewrite Forall_forall in Hy |- *. intros z Hz.
    apply key_lt_trans with (b := y); [now split|auto].
  - constructor; [exact IH|].
    rewrite Forall_forall in Hy |- *. intros z Hz.
    apply insert_key_In in Hz. destruct Hz as [->|Hz]; [|auto].
    split; [|congruence]. destruct (leb_total x y); congruence.
Qed.

Lemma group_keys_sorted col : StronglySorted (key_lt leb) (group_keys eqb leb col).
Proof.
  induction col as [|x col IH]; [constructor|]. cbn. now apply insert_key_sorted.
Qed.

Lemma group_keys_complete k col : In k col -> In k (group_keys eqb leb col).
Proof.
  induction col as [|x col IH]; [easy|]. cbn.
  intros [->|H]; apply insert_key_complete; auto.
Qed.

Lemma sorted_keys_NoDup l : StronglySorted (key_lt leb) l -> NoDup l.
Proof.
  induction 1 as [|y l Hs IH Hy]; constructor; [|exact IH].
  intros Hin. rewrite Forall_forall in Hy. now destruct (Hy y Hin).
Qed.

Lemma sum_indicator k0 v ks :
  NoDup ks -> In k0 ks ->
  col_sum (map (fun k => if eqb k0 k then v else 0) ks) = v.
Proof.
  induction 1 as [|k ks Hk Hnd IH]; [easy|].
  cbn [map]. rewrite col_sum_cons. intros [->|Hin].
  - assert (E : eqb k0 k0 = true) by now apply eqb_eq. rewrite E.
    rewrite (map_ext_in _ (fun _ => 0)), col_sum_zero; [lia|].
    intros k Hin. destruct (eqb k0 k) eqn:E0; [|reflexivity].
    apply eqb_eq in E0. subst. contradiction.
  - destruct (eqb k0 k) eqn:E0.
    + apply eqb_eq in E0. subst. contradiction.
    + rewrite IH by exact Hin. lia.
Qed.

(** A column summed group by group is the column summed. *)
Lemma sum_by_groups (key : BedRecord -> K) (w : BedRecord -> Z) ks data :
  NoDup ks -> (forall r, In r data -> In (key r) ks) ->
  col_sum (map (fun k => col_sum (map w (filter (fun r => eqb (key r) k) data))) ks)
  = col_sum (map w data).
Proof.
  intros Hnd. induction data as [|r data IH]; intros Hin.
  - cbn [filter map]. apply col_sum_zero.
  - cbn [map]. rewrite col_sum_cons.
    rewrite <- IH by (intros x Hx; apply Hin; now right).
    rewrite <- (sum_indicator (key r) (w r) ks Hnd) at 1
      by (apply Hin; now left).
    rewrite <- col_sum_plus. f_equal. apply map_ext. intros k.
    cbn [filter]. destruct (eqb (key r) k); [|lia].
    cbn [map]. now rewrite col_sum_cons.
Qed.

(** The groups of a group-by partition the frame: every column sums to the
    same value group by group, keys are strictly ascending, and the keys are
    the values of the key column. *)
Lemma groupby_partition (key : BedRecord -> K) (w : BedRecord -> Z) data :
  col_sum (map (fun g => col_sum (map w (snd g))) (groupby eqb leb key data))
  = col_sum (map w data)
  /\ StronglySorted (key_lt leb) (map fst (groupby eqb leb key data))
  /\ (forall k, In k (map fst (groupby eqb leb key data)) <-> In k (map key data)).
Proof.
  unfold groupby. rewrite !map_map. cbn [fst snd]. rewrite map_id.
  split; [|split].
  - apply sum_by_groups.
    + apply sorted_keys_NoDup, group_keys_sorted.
    + intros r Hr. apply group_keys_complete. now apply in_map.
  - apply group_keys_sorted.
  - intros k. split; [apply group_keys_In|apply group_keys_complete].
Qed.

End GroupOrder.

(** ** The views as partitions of the filtered frame *)

Lemma agg_occupied_groups {K} (groups : list (K * DataFrame)) :
  map agg_occupied (occupancy_agg groups)
  = map (fun g => col_sum (map occupied (snd g))) groups.
Proof. unfold occupancy_agg. rewrite map_map. reflexivity. Qed.

Lemma agg_key_groups {K} (groups : list (K * DataFrame)) :
  map agg_key (occupancy_agg groups) = map fst groups.
Proof. unfold occupancy_agg. rewrite map_map. reflexivity. Qed.

(** X7: in each of the trend, ward, hospital and critical views the occupied
    counts of the rows add up to the KPI occupied count of the filtered
    frame, and so do the daily sums of the admission pressure view; in
    particular Critical plus Non-Critical is the total. *)
Theorem views_occupied_add_up (data : DataFrame) :
  col_sum (map agg_occupied (trend data)) = occupied_beds data
  /\ col_sum (map agg_occupied (ward_util data)) = occupied_beds data
  /\ col_sum (map agg_occupied (hospital_util data)) = occupied_beds data
  /\ col_sum (map agg_occupied (critical_cmp data)) = occupied_beds data
  /\ col_sum (map snd (daily_load data)) = occupied_beds data.
Proof.
  unfold trend, ward_util, hospital_util, critical_cmp, daily_load, occupied_beds.
  rewrite !agg_occupied_groups, map_map. cbn [snd].
  repeat split.
  - apply (groupby_partition ts_eqb ts_leb ts_eqb_eq ts_leb_total
             ts_leb_antisym ts_leb_trans date occupied data).
  - apply (groupby_partition String.eqb String.leb String.eqb_eq String.leb_total
             String.leb_antisym string_leb_trans ward occupied data).
  - apply (groupby_partition String.eqb String.leb String.eqb_eq String.leb_total
             String.leb_antisym string_leb_trans hospital occupied data).
  - apply (groupby_partition String.eqb String.leb String.eqb_eq String.leb_total
             String.leb_antisym string_leb_trans category occupied data).
  - apply (groupby_partition ts_eqb ts_leb ts_eqb_eq ts_leb_total
             ts_leb_antisym ts_leb_trans date occupied data).
Qed.

(** X8: the trend view and the admission pressure view have one row per
    distinct timestamp of the filtered frame, in strictly ascending order of
    date. *)
Theorem trend_ascending_by_date (data : DataFrame) :
  StronglySorted (key_lt ts_leb) (map agg_key (trend data))
  /\ (forall d, In d (map agg_key (trend data)) <-> In d (map date data))
  /\ map fst (daily_load data) = map agg_key (trend data).
Proof.
  unfold trend, daily_load. rewrite agg_key_groups, map_map. cbn [fst].
  destruct (groupby_partition ts_eqb ts_leb ts_eqb_eq ts_leb_total
              ts_leb_antisym ts_leb_trans date occupied data) as (_ & Hs & Hk).
  split; [exact Hs|]. split; [exact Hk|reflexivity].
Qed.

(** X9: the ward, hospital and critical views have one row per distinct
    value of their key column in the filtered frame, in strictly ascending
    string order; the critical view has a "Critical" row exactly when an ICU
    or Emergency row is left and a "Non-Critical" row exactly when a row of
    another ward is left. *)
Theorem string_views_keys (data : DataFrame) :
  (StronglySorted (key_lt String.leb) (map agg_key (ward_util data))
   /\ forall w, In w (map agg_key (ward_util data)) <-> In w (map ward data))
  /\ (StronglySorted (key_lt String.leb) (map agg_key (hospital_util data))
      /\ forall h, In h (map agg_key (hospital_util data))
                   <-> In h (map hospital data))
  /\ (StronglySorted (key_lt String.leb) (map agg_key (critical_cmp data))
      /\ (In "Critical" (map agg_key (critical_cmp data))
          <-> exists r, In r data /\ In (ward r) critical_wards)
      /\ (In "Non-Critical" (map agg_key (critical_cmp data))
          <-> exists r, In r data /\ ~ In (ward r) critical_wards)
      /\ forall k, In k (map agg_key (critical_cmp data)) ->
                   k = "Critical" \/ k = "Non-Critical").
Proof.
  unfold ward_util, hospital_util, critical_cmp. rewrite !agg_key_groups.
  destruct (groupby_partition String.eqb String.leb String.eqb_eq String.leb_total
              String.leb_antisym string_leb_trans ward occupied data)
    as (_ & Hs1 & Hk1).
  destruct (groupby_partition String.eqb String.leb String.eqb_eq String.leb_total
              String.leb_antisym string_leb_trans hospital occupied data)
    as (_ & Hs2 & Hk2).
  destruct (groupby_partition String.eqb String.leb String.eqb_eq String.leb_total
              String.leb_antisym string_leb_trans category occupied data)
    as (_ & Hs3 & Hk3).
  split; [now split|]. split; [now split|]. split; [exact Hs3|].
  assert (Hcat : forall r,
            (category r = "Critical" <-> In (ward r) critical_wards)
            /\ (category r = "Non-Critical" <-> ~ In (ward r) critical_wards)).
  { intros r. unfold category. rewrite <- isin_In.
    destruct (isin (ward r) critical_wards); split; split;
      intros H; try reflexivity; try discriminate; try congruence;
      now destruct H. }
  split; [|split].
  - rewrite Hk3, in_map_iff. split.
    + intros [r [E Hr]]. exists r. split; [exact Hr|now apply Hcat].
    + intros [r [Hr E]]. exists r. split; [now apply Hcat|exact Hr].
  - rewrite Hk3, in_map_iff. split.
    + intros [r [E Hr]]. exists r. split; [exact Hr|now apply Hcat].
    + intros [r [Hr E]]. exists r. split; [now apply Hcat|exact Hr].
  - intros k Hk. apply Hk3 in Hk. apply in_map_iff in Hk.
    destruct Hk as [r [<- _]]. unfold category.
    destruct (isin (ward r) critical_wards); auto.
Qed.

(** ** Totals, means and labels on the generated frame *)

Lemma col_sum_ones {A} (l : list A) :
  col_sum (map (fun _ => 1) l) = Z.of_nat (List.length l).
Proof.
  induction l as [|x l IH]; [reflexivity|].
  cbn [map List.length]. rewrite col_sum_cons, IH. lia.
Qed.

Section GroupTotals.

Context {K : Type} (eqb leb : K -> K -> bool).
Hypothesis eqb_eq : forall a b, eqb a b = true <-> a = b.
Hypothesis leb_total : forall a b, leb a b = true \/ leb b a = true.
Hypothesis leb_antisym : forall a b, leb a b = true -> leb b a = true -> a = b.
Hypothesis leb_trans :
  forall a b c, leb a b = true -> leb b c = true -> leb a c = true.

Lemma agg_total_add_up (key : BedRecord -> K) data :
  NoDup (map bed_id data) ->
  col_sum (map agg_total (occupancy_agg (groupby eqb leb key data)))
  = total_beds data.
Proof.
  intros Hnd. unfold occupancy_agg, total_beds. rewrite map_map. cbn [agg_total].
  rewrite (nunique_NoDup _ Hnd), length_map, <- col_sum_ones.
  rewrite <- (proj1 (groupby_partition eqb leb eqb_eq leb_total leb_antisym
                       leb_trans key (fun _ => 1) data)).
  f_equal. apply map_ext_in. intros g Hg.
  apply groupby_In in Hg. destruct Hg as [_ Hrows].
  destruct g as [k rows]. cbn [fst snd] in *. subst rows.
  rewrite nunique_NoDup by now apply NoDup_map_filter.
  now rewrite length_map, col_sum_ones.
Qed.

End GroupTotals.

Lemma pair_eqb_refl k : pair_eqb k k = true.
Proof. unfold pair_eqb. now rewrite !String.eqb_refl. Qed.

Lemma mean_bounds s n :
  0 <= s <= n -> 1 <= n ->
  exists q, truediv s n = Finite q /\ (0 <= q)%Q /\ (q <= inject_Z 1)%Q.
Proof.
  intros Hs Hn. unfold truediv. destruct (Z.eqb_spec n 0); [lia|].
  eexists. split; [reflexivity|].
  destruct n as [|p|p]; try lia.
  unfold Qle, Qdiv, Qmult, Qinv, inject_Z. cbn.
  rewrite ?Pos.mul_1_r. split; nia.
Qed.

Section GeneratedViews.

Context {R : RandomState}.

(** X10: for every selection, on the generated frame, the bed totals of the
    rows of the trend, ward, hospital and critical views each add up to the
    KPI total. *)
Theorem views_total_add_up (today : Timestamp) (c : FilterCriteria) :
  exists df,
    generate_data today = Some df
    /\ col_sum (map agg_total (trend (apply_filters c df)))
       = total_beds (apply_filters c df)
    /\ col_sum (map agg_total (ward_util (apply_filters c df)))
       = total_beds (apply_filters c df)
    /\ col_sum (map agg_total (hospital_util (apply_filters c df)))
       = total_beds (apply_filters c df)
    /\ col_sum (map agg_total (critical_cmp (apply_filters c df)))
       = total_beds (apply_filters c df).
Proof.
  destruct (filtered_generated today c) as (df & Hdf & Hnd & _).
  exists df. split; [exact Hdf|].
  unfold trend, ward_util, hospital_util, critical_cmp. repeat split.
  - now apply (agg_total_add_up ts_eqb ts_leb ts_eqb_eq ts_leb_total
                 ts_leb_antisym ts_leb_trans).
  - now apply (agg_total_add_up String.eqb String.leb String.eqb_eq
                 String.leb_total String.leb_antisym string_leb_trans).
  - now apply (agg_total_add_up String.eqb String.leb String.eqb_eq
                 String.leb_total String.leb_antisym string_leb_trans).
  - now apply (agg_total_add_up String.eqb String.leb String.eqb_eq
                 String.leb_total String.leb_antisym string_leb_trans).
Qed.

(** X11: for every selection, on the generated frame, every cell of the
    heatmap belongs to a (hospital, ward) pair that occurs in the filtered
    frame and holds a finite mean between 0 and 1. *)
Theorem heatmap_mean_in_unit_range (today : Timestamp) (c : FilterCriteria) :
  exists df,
    generate_data today = Some df
    /\ forall cell, In cell (heatmap (apply_filters c df)) ->
         (exists r, In r (apply_filters c df)
                    /\ fst cell = (hospital r, ward r))
         /\ exists q, snd cell = Finite q /\ (0 <= q)%Q /\ (q <= inject_Z 1)%Q.
Proof.
  destruct (filtered_generated today c) as (df & Hdf & _ & Hfl).
  exists df. split; [exact Hdf|].
  set (data := apply_filters c df) in *.
  intros cell Hcell. unfold heatmap in Hcell. apply in_map_iff in Hcell.
  destruct Hcell as [g [<- Hg]]. cbn [fst snd].
  apply groupby_In in Hg. destruct Hg as [[r [Hr Hk]] Hrows].
  destruct g as [k rows]. cbn [fst snd] in *.
  split; [exists r; split; [exact Hr|now symmetry]|].
  assert (Hin : In r rows).
  { rewrite Hrows. apply filter_In. split; [exact Hr|].
    rewrite Hk. apply pair_eqb_refl. }
  destruct (col_sum_flags rows) as [Hs Hl];
    [rewrite Hrows; now apply flags01_filter|].
  pose proof (count_status_nonneg 0 rows).
  pose proof (count_status_nonneg 1 rows).
  assert (1 <= Z.of_nat (List.length rows)).
  { destruct rows; [easy|cbn [List.length]; lia]. }
  apply mean_bounds; lia.
Qed.

(** X12: for every selection, on the generated frame, the table has one row
    per row of the filtered frame, in the same order, and every row carries a
    status label: "Occupied" when the flag is 1 and "Available" otherwise;
    no label is missing. *)
Theorem live_table_labels (today : Timestamp) (c : FilterCriteria) :
  exists df,
    generate_data today = Some df
    /\ live_table (apply_filters c df)
       = map (fun r => (date r, hospital r, ward r, bed_id r,
                        Some (if occupied r =? 1 then "Occupied" else "Available")))
             (apply_filters c df).
Proof.
  destruct (filtered_generated today c) as (df & Hdf & _ & Hfl).
  exists df. split; [exact Hdf|].
  unfold live_table. apply map_ext_in. intros r Hr.
  destruct (Hfl r Hr) as [E|E]; rewrite E; reflexivity.
Qed.

End GeneratedViews.

(** * Further properties of the generator *)

Lemma dict_get_wards w : dict_get ward_capacity w = None <-> ~ In w wards.
Proof.
  unfold ward_capacity, wards. cbn [dict_get In].
  destruct (String.eqb_spec "ICU" w); [split; [discriminate|tauto]|].
  destruct (String.eqb_spec "Emergency" w); [split; [discriminate|tauto]|].
  destruct (String.eqb_spec "General" w); [split; [discriminate|tauto]|].
  destruct (String.eqb_spec "Maternity" w); [split; [discriminate|tauto]|].
  tauto.
Qed.

Lemma capacity_or_zero_ward w :
  In w wards ->
  dict_get ward_capacity w = Some (capacity_or_zero w)
  /\ 0 < int_half (capacity_or_zero w) < capacity_or_zero w.
Proof.
  intros H. destruct (capacity_of_ward w H) as [c [Hc Hb]].
  unfold capacity_or_zero. rewrite Hc. now split.
Qed.

Lemma layout_rows_from d h w occ b l :
  map layout_row (rows_from d h w occ b l)
  = map (fun i => (d, h, w, bed_label (b + i))) (zseq 0 (List.length l)).
Proof.
  revert b. induction l as [|i l IH]; intros b; [reflexivity|].
  cbn [rows_from List.length map]. rewrite zseq_S. cbn [map]. f_equal.
  - unfold layout_row. cbn. now rewrite Z.add_0_r.
  - rewrite IH. unfold zseq. rewrite !map_map. apply map_ext. intros n.
    replace (b + 1 + (0 + Z.of_nat n)) with (b + (0 + 1 + Z.of_nat n)) by lia.
    reflexivity.
Qed.

Lemma col_sum_list_prod {A B} (f : B -> Z) (l : list A) (l' : list B) :
  col_sum (map (fun p => f (snd p)) (list_prod l l'))
  = Z.of_nat (List.length l) * col_sum (map f l').
Proof.
  induction l as [|a l IH]; [reflexivity|].
  cbn [list_prod List.length]. rewrite map_app, col_sum_app, map_map, IH.
  cbn [snd]. rewrite Nat2Z.inj_succ.
  change (fun x : B => f x) with f. nia.
Qed.

Lemma layout_length gs b :
  (forall k, In k gs -> In (snd (snd k)) wards) ->
  Z.of_nat (List.length (layout gs b))
  = col_sum (map (fun k => capacity_or_zero (snd (snd k))) gs).
Proof.
  revert b. induction gs as [|[d [h w]] gs IH]; intros b Hw; [reflexivity|].
  cbn [layout map snd]. rewrite col_sum_cons, length_app, length_map.
  rewrite Nat2Z.inj_add, IH by (intros k Hk; apply Hw; now right).
  destruct (capacity_or_zero_ward w) as [_ Hb]; [apply (Hw (d, (h, w))); now left|].
  rewrite length_range by lia. reflexivity.
Qed.

Section GeneratorRuns.

Context {R : RandomState}.

(** One pass of the ward loop body, with the draw made explicit. *)
Lemma ward_body_draw d h w s :
  In w wards ->
  ward_body d h w s
  = Some (tt, mkGen (snd (rng_randint (g_rng s) (int_half (capacity_or_zero w))
                                      (capacity_or_zero w)))
                (g_bed_no s + capacity_or_zero w)
                (g_data s
                 ++ rows_from d h w
                      (fst (rng_randint (g_rng s) (int_half (capacity_or_zero w))
                                        (capacity_or_zero w)))
                      (g_bed_no s) (range (capacity_or_zero w)))).
Proof.
  intros Hw. destruct (capacity_or_zero_ward w Hw) as [Hc Hb].
  set (c := capacity_or_zero w) in *.
  unfold ward_body, bind, subscript. rewrite Hc. unfold ret, np_randint.
  destruct (Z.ltb_spec (int_half c) c) as [_|]; [|lia].
  destruct (rng_randint (g_rng s) (int_half c) c) as [v g'].
  rewrite for_each_append_bed. cbn [g_rng g_bed_no g_data fst snd].
  rewrite length_range by lia. reflexivity.
Qed.

Lemma run_groups_rows gs : forall s,
  (forall k, In k gs -> In (snd (snd k)) wards) ->
  exists s',
    for_each gs group_body s = Some (tt, s')
    /\ g_data s' = g_data s ++ expected_rows (g_rng s) (g_bed_no s) gs.
Proof.
  induction gs as [|[d [h w]] gs IH]; intros s Hw.
  - exists s. cbn. now rewrite app_nil_r.
  - cbn [for_each]. unfold bind.
    change (group_body (d, (h, w))) with (ward_body d h w).
    rewrite ward_body_draw by (apply (Hw (d, (h, w))); now left).
    destruct (IH (mkGen
                (snd (rng_randint (g_rng s) (int_half (capacity_or_zero w))
                                  (capacity_or_zero w)))
                (g_bed_no s + capacity_or_zero w)
                (g_data s
                 ++ rows_from d h w
                      (fst (rng_randint (g_rng s) (int_half (capacity_or_zero w))
                                        (capacity_or_zero w)))
                      (g_bed_no s) (range (capacity_or_zero w)))))
      as (s' & Hfor & Hdata).
    { intros k Hk. apply Hw. now right. }
    exists s'. split; [exact Hfor|].
    rewrite Hdata. cbn [g_rng g_bed_no g_data expected_rows].
    now rewrite app_assoc.
Qed.

Lemma groups_wards today k : In k (groups today) -> In (snd (snd k)) wards.
Proof.
  destruct k as [d [h w]]. unfold groups. intros Hk.
  apply in_prod_iff in Hk. destruct Hk as [_ Hk].
  apply in_prod_iff in Hk. now destruct Hk.
Qed.

Lemma generate_data_rows today :
  generate_data today = Some (expected_rows (rng_seed 42) 1 (groups today)).
Proof.
  destruct (run_groups_rows (groups today) (mkGen (rng_seed 42) 1 []))
    as (s' & Hfor & Hdata); [apply groups_wards|].
  unfold generate_data. rewrite generate_loops_groups, Hfor.
  now rewrite Hdata.
Qed.

Lemma expected_rows_layout gs : forall g b,
  map layout_row (expected_rows g b gs) = layout gs b.
Proof.
  induction gs as [|[d [h w]] gs IH]; intros g b; [reflexivity|].
  cbn [expected_rows layout]. rewrite map_app, IH, layout_rows_from.
  now rewrite !range_zseq, length_zseq.
Qed.

End GeneratorRuns.

Lemma some_eq {A} (x y : A) : Some x = Some y -> x = y.
Proof. intros [= H]. exact H. Qed.

Lemma groups_length today : List.length (groups today) = 360%nat.
Proof.
  unfold groups, date_range_end. now rewrite !length_prod, length_map.
Qed.

Lemma groups_capacity today :
  col_sum (map (fun k => capacity_or_zero (snd (snd k))) (groups today)) = 11250.
Proof.
  unfold groups.
  rewrite (col_sum_list_prod (fun p => capacity_or_zero (snd p))).
  unfold date_range_end. rewrite length_map. reflexivity.
Qed.

Section GeneratorExtras.

Context {R : RandomState}.

(** X13: whatever the clock and the random stream, the generated frame has
    11250 rows (30 days, 3 hospitals, 125 beds) and its bed ids are B-1 to
    B-11250 in frame order. *)
Theorem generated_row_count (today : Timestamp) :
  exists df,
    generate_data today = Some df
    /\ Z.of_nat (List.length df) = 11250
    /\ map bed_id df = map bed_label (zseq 1 (Z.to_nat 11250)).
Proof.
  destruct (generate_data_spec today) as (df & Hdf & Hgen).
  exists df. split; [exact Hdf|].
  assert (Hlen : Z.of_nat (List.length df) = 11250).
  { pose proof (generate_data_rows today) as Hrows. rewrite Hdf in Hrows.
    apply some_eq in Hrows.
    rewrite <- (length_map layout_row), Hrows, expected_rows_layout.
    rewrite layout_length by apply groups_wards.
    apply groups_capacity. }
  split; [exact Hlen|]. rewrite <- Hlen, Nat2Z.id. apply (gen_ids _ _ _ Hgen).
Qed.

(** X15: the body of the ward loop raises exactly for a ward name that is
    not a key of the capacity dict; for the four wards it always returns. *)
Theorem ward_body_raises_iff_unknown (d : Timestamp) (h w : string) (s : GenState) :
  ward_body d h w s = None <-> ~ In w wards.
Proof.
  split.
  - intros H Hw. rewrite ward_body_draw in H by exact Hw. discriminate H.
  - intros Hw. apply dict_get_wards in Hw.
    unfold ward_body, bind, subscript. now rewrite Hw.
Qed.

(** X16: the generator draws from the stream once per (date, hospital, ward)
    triple, 360 times in loop order, each time asking for a count in
    [int(capacity*0.5), capacity) from the state the previous draw left; its
    frame is the rows of the triples for these draws, one block after the
    other. *)
Theorem generate_data_draws (today : Timestamp) :
  generate_data today = Some (expected_rows (rng_seed 42) 1 (groups today))
  /\ List.length (groups today) = 360%nat.
Proof. split; [apply generate_data_rows|apply groups_length]. Qed.

End GeneratorExtras.

(** X14: the random stream decides the occupancy flags only: under any two
    streams the generated frames have the same date, hospital, ward and
    bed id in every row. *)
Theorem layout_independent_of_stream (R1 R2 : RandomState) (today : Timestamp) :
  exists df1 df2,
    generate_data (R := R1) today = Some df1
    /\ generate_data (R := R2) today = Some df2
    /\ map layout_row df1 = map layout_row df2.
Proof.
  exists (expected_rows (R := R1) (rng_seed 42) 1 (groups today)),
         (expected_rows (R := R2) (rng_seed 42) 1 (groups today)).
  split; [apply generate_data_rows|]. split; [apply generate_data_rows|].
  now rewrite !expected_rows_layout.
Qed.

(** * The sidebar *)

Lemma ts_leb_day a b : ts_leb a b = true -> ts_day a <= ts_day b.
Proof. rewrite ts_leb_le. lia. Qed.

Lemma ts_min_spec l m :
  ts_min l = Some m -> In m l /\ forall x, In x l -> ts_leb m x = true.
Proof.
  revert m. induction l as [|y l IH]; intros m; [discriminate|].
  cbn [ts_min]. destruct (ts_min l) as [m'|] eqn:E.
  - destruct (IH m' eq_refl) as [Hin Hle]. intros [= <-].
    destruct (ts_leb y m') eqn:L.
    + split; [now left|]. intros x [<-|Hx].
      * destruct (ts_leb_total y y); assumption.
      * apply ts_leb_trans with (b := m'); auto.
    + split; [now right|]. intros x [<-|Hx]; [|auto].
      destruct (ts_leb_total y m'); congruence.
  - intros [= <-]. destruct l as [|z l]; [|cbn in E; destruct (ts_min l); discriminate].
    split; [now left|]. intros x [<-|[]].
    destruct (ts_leb_total y y); assumption.
Qed.

Lemma ts_max_spec l m :
  ts_max l = Some m -> In m l /\ forall x, In x l -> ts_leb x m = true.
Proof.
  revert m. induction l as [|y l IH]; intros m; [discriminate|].
  cbn [ts_max]. destruct (ts_max l) as [m'|] eqn:E.
  - destruct (IH m' eq_refl) as [Hin Hle]. intros [= <-].
    destruct (ts_leb m' y) eqn:L.
    + split; [now left|]. intros x [<-|Hx].
      * destruct (ts_leb_total y y); assumption.
      * apply ts_leb_trans with (b := m'); auto.
    + split; [now right|]. intros x [<-|Hx]; [|auto].
      destruct (ts_leb_total y m'); congruence.
  - intros [= <-]. destruct l as [|z l]; [|cbn in E; destruct (ts_max l); discriminate].
    split; [now left|]. intros x [<-|[]].
    destruct (ts_leb_total y y); assumption.
Qed.

Lemma ts_min_some l : l <> [] -> exists m, ts_min l = Some m.
Proof.
  destruct l as [|y l]; [easy|]. intros _. cbn. destruct (ts_min l); eauto.
Qed.

Lemma ts_max_some l : l <> [] -> exists m, ts_max l = Some m.
Proof.
  destruct l as [|y l]; [easy|]. intros _. cbn. destruct (ts_max l); eauto.
Qed.

Lemma insert_sorted_In x y l : In x (insert_sorted y l) <-> x = y \/ In x l.
Proof.
  induction l as [|z l IH]; cbn.
  - intuition.
  - destruct (String.leb y z); cbn; [intuition|]. rewrite IH. intuition.
Qed.

Lemma sorted_In x l : In x (sorted l) <-> In x l.
Proof.
  induction l as [|y l IH]; [reflexivity|].
  cbn. rewrite insert_sorted_In, IH. intuition.
Qed.

(** X17: before the user touches the sidebar the filter chain keeps the
    whole frame: with the default selection computed from a frame, filtering
    that frame returns it unchanged. *)
Theorem default_selection_keeps_all (df : DataFrame) (c : FilterCriteria) :
  default_criteria df = Some c -> apply_filters c df = df.
Proof.
  unfold default_criteria, date_bounds.
  destruct (ts_min (map date df)) as [lo|] eqn:Elo; [|discriminate].
  destruct (ts_max (map date df)) as [hi|] eqn:Ehi; [|discriminate].
  intros [= <-].
  destruct (ts_min_spec _ _ Elo) as [_ Hlo].
  destruct (ts_max_spec _ _ Ehi) as [_ Hhi].
  rewrite apply_filters_keep. apply forallb_filter_id, forallb_forall.
  intros r Hr.
  unfold keep_row, keep_hospital, keep_ward, keep_critical, keep_status,
    keep_date, ts_date.
  cbn [c_hospital c_ward c_bed_status c_critical_view c_date_range fst snd].
  assert (Hw : isin (ward r) (ward_options df) = true).
  { apply isin_In. unfold ward_options. rewrite unique_In. now apply in_map. }
  assert (Hd1 : ts_day lo <= ts_day (date r)).
  { apply ts_leb_day, Hlo. now apply in_map. }
  assert (Hd2 : ts_day (date r) <= ts_day hi).
  { apply ts_leb_day, Hhi. now apply in_map. }
  rewrite Hw. apply Z.leb_le in Hd1, Hd2. rewrite Hd1, Hd2. reflexivity.
Qed.

Lemma default_selection_keeps_all_witness :
  default_criteria sample_frame
  = Some (mkCriteria "All" ["ICU"; "General"; "Emergency"; "Maternity"] "All"
            false (738915, 738915))
  /\ apply_filters
       (mkCriteria "All" ["ICU"; "General"; "Emergency"; "Maternity"] "All"
          false (738915, 738915))
       sample_frame
     = sample_frame.
Proof.
  split; [reflexivity|].
  apply (default_selection_keeps_all sample_frame). reflexivity.
Defined.

Section GeneratedSidebar.

Context {R : RandomState}.

(** Every (date, hospital, ward) triple of the loops has a row in the
    generated frame, and every row belongs to such a triple. *)
Lemma generated_triples today :
  exists df,
    generate_data today = Some df
    /\ (forall d h w,
          In d (date_range_end today 30) -> In h hospitals -> In w wards ->
          exists r, In r df /\ date r = d /\ hospital r = h /\ ward r = w)
    /\ (forall r, In r df ->
          In (date r) (date_range_end today 30)
          /\ In (hospital r) hospitals /\ In (ward r) wards).
Proof.
  destruct (generate_data_spec today) as (df & Hdf & Hgen).
  exists df. split; [exact Hdf|]. split.
  - intros d h w Hd Hh Hw.
    destruct (gen_groups _ _ _ Hgen (groups_NoDup today) d h w)
      as (c & occ & Hc & Hpos & _ & Hocc).
    { unfold groups. apply in_prod_iff. split; [exact Hd|].
      apply in_prod_iff. now split. }
    destruct (group_rows d h w df) as [|r rows] eqn:E.
    + apply (f_equal (@List.length Z)) in Hocc.
      cbn [map List.length] in Hocc. rewrite length_map in Hocc.
      pose proof (length_range c ltac:(lia)). lia.
    + exists r. apply group_rows_In. rewrite E. now left.
  - intros r Hr. apply (gen_keys _ _ _ Hgen) in Hr. unfold key_of, groups in Hr.
    apply in_prod_iff in Hr. destruct Hr as [Hd Hr].
    apply in_prod_iff in Hr. tauto.
Qed.

(** X18: on the generated frame the sidebar offers "All" and the three
    hospitals in the select box, the four wards, each once, in the
    multiselect, and the slider runs from 29 days before the day of the run
    to that day; the default selection exists. *)
Theorem sidebar_of_generated_frame (today : Timestamp) :
  exists df c,
    generate_data today = Some df
    /\ default_criteria df = Some c
    /\ date_bounds df = Some (ts_date today - 29, ts_date today)
    /\ (forall h, In h (hospital_options df) <-> h = "All" \/ In h hospitals)
    /\ (forall w, In w (ward_options df) <-> In w wards)
    /\ NoDup (ward_options df).
Proof.
  destruct (generated_triples today) as (df & Hdf & Hall & Hrow).
  assert (Hfirst : In (mkTimestamp (ts_day today - 29) (ts_time today))
                      (date_range_end today 30)).
  { unfold date_range_end. apply in_map_iff. exists 0. split.
    - f_equal. lia.
    - rewrite range_zseq. apply in_zseq. cbn. lia. }
  assert (Hlast : In today (date_range_end today 30)).
  { unfold date_range_end. apply in_map_iff. exists 29. split.
    - destruct today; cbn. f_equal. lia.
    - rewrite range_zseq. apply in_zseq. cbn. lia. }
  assert (Hdays : forall d, In d (map date df) ->
            ts_day today - 29 <= ts_day d <= ts_day today).
  { intros d Hd. apply in_map_iff in Hd. destruct Hd as [r [<- Hr]].
    destruct (Hrow r Hr) as [Hin _]. unfold date_range_end in Hin.
    apply in_map_iff in Hin. destruct Hin as [k [<- Hk]].
    rewrite range_zseq in Hk. apply in_zseq in Hk. cbn in *. lia. }
  destruct (Hall _ "City Hospital" "ICU" Hfirst) as (r0 & Hr0 & Ed0 & _);
    [cbn; auto..|].
  destruct (Hall _ "City Hospital" "ICU" Hlast) as (r1 & Hr1 & Ed1 & _);
    [cbn; auto..|].
  assert (Hne : map date df <> []).
  { destruct df; [destruct Hr0|discriminate]. }
  destruct (ts_min_some _ Hne) as [lo Elo].
  destruct (ts_max_some _ Hne) as [hi Ehi].
  destruct (ts_min_spec _ _ Elo) as [Hlo_in Hlo].
  destruct (ts_max_spec _ _ Ehi) as [Hhi_in Hhi].
  assert (Elo_day : ts_day lo = ts_day today - 29).
  { pose proof (Hdays lo Hlo_in).
    assert (H0 : ts_leb lo (date r0) = true) by (apply Hlo; now apply in_map).
    apply ts_leb_day in H0. rewrite Ed0 in H0. cbn in H0. lia. }
  assert (Ehi_day : ts_day hi = ts_day today).
  { pose proof (Hdays hi Hhi_in).
    assert (H1 : ts_leb (date r1) hi = true) by (apply Hhi; now apply in_map).
    apply ts_leb_day in H1. rewrite Ed1 in H1. lia. }
  assert (Hb : date_bounds df = Some (ts_date today - 29, ts_date today)).
  { unfold date_bounds, ts_date. now rewrite Elo, Ehi, Elo_day, Ehi_day. }
  exists df, (mkCriteria "All" (ward_options df) "All" false
                (ts_date today - 29, ts_date today)).
  split; [exact Hdf|]. split; [unfold default_criteria; now rewrite Hb|].
  split; [exact Hb|]. split; [|split].
  - intros h. unfold hospital_options. cbn [In].
    rewrite sorted_In, unique_In, in_map_iff. split.
    + intros [<-|[r [<- Hr]]]; [now left|]. right. now apply Hrow.
    + intros [->|Hh]; [now left|]. right.
      destruct (Hall today h "ICU" Hlast Hh) as (r & Hr & _ & Eh & _);
        [cbn; auto|]. now exists r.
  - intros w. unfold ward_options. rewrite unique_In, in_map_iff. split.
    + intros [r [<- Hr]]. now apply Hrow.
    + intros Hw.
      destruct (Hall today "City Hospital" w Hlast) as (r & Hr & _ & _ & Ew);
        [cbn; auto|exact Hw|]. now exists r.
  - apply unique_NoDup.
Qed.

End GeneratedSidebar.
